(** * Webhook alert system: a shallow embedding of [app/webhook_handler.py]

    The module under study is a small Flask application: one HTTP route
    ([webhook_handler]), one SMTP helper ([send_email_alert]), a login probe
    ([test_email_login]), a provisioning call ([create_webhook]) and the
    start-up block run under [__main__].

    Python values are modelled by an inductive type, Python [str] by the list
    of its code points, the global [webhook_count] by a field of an explicit
    world state, and [try]/[except] by a state-and-exception monad.  What the
    interpreter's surroundings answer (the SMTP server, webhook.site, the
    running listener, the Unicode database) is taken as a family of oracles
    that read the trace of everything that happened so far. *)

From Stdlib Require Import ZArith NArith List String Ascii Bool Lia.
From Stdlib Require Import DecimalString.
Import ListNotations.

Local Open Scope list_scope.

(* ================================================================== *)
(** ** Python strings *)

Module PyStr.

(** A [str] is a sequence of code points; lone surrogates (U+D800..U+DFFF)
    are legal members, as in CPython. *)
Definition pystr := list N.

Definition py (s : string) : pystr := map N_of_ascii (list_ascii_of_string s).
Arguments py s%_string : simpl never.

Definition NL : pystr := [10%N].

Fixpoint eqb (a b : pystr) : bool :=
  match a, b with
  | [], [] => true
  | x :: a', y :: b' => N.eqb x y && eqb a' b'
  | _, _ => false
  end.

(** [sep.join(parts)] *)
Fixpoint join (sep : pystr) (parts : list pystr) : pystr :=
  match parts with
  | [] => []
  | [p] => p
  | p :: rest => p ++ sep ++ join sep rest
  end.

(** [str(n)] for an [int]. *)
Definition of_Z (z : Z) : pystr := py (NilZero.string_of_int (Z.to_int z)).

Definition hex_digit (d : N) : N :=
  if (d <? 10)%N then (48 + d)%N else (87 + d)%N.

(** [width] lower-case hexadecimal digits of [n], most significant first. *)
Fixpoint hex (width : nat) (n : N) : pystr :=
  match width with
  | O => []
  | S w => hex w (n / 16)%N ++ [hex_digit (n mod 16)%N]
  end.

Definition is_surrogate (c : N) : bool := ((55296 <=? c) && (c <=? 57343))%N.

Definition is_ascii (c : N) : bool := (c <? 128)%N.

Definition BACKSLASH : N := 92%N.
Definition SQUOTE : N := 39%N.
Definition DQUOTE : N := 34%N.

Definition contains (c : N) (s : pystr) : bool := existsb (N.eqb c) s.

Section Repr.
(** The Unicode database's verdict on non-ASCII code points outside the
    surrogate block (what [str.isprintable] consults). *)
Variable unicode_printable : N -> bool.

Definition isprintable (c : N) : bool :=
  if is_ascii c then ((32 <=? c) && (c <? 127))%N
  else if is_surrogate c then false
  else unicode_printable c.

Definition escape_hex (c : N) : pystr :=
  if (c <? 256)%N then BACKSLASH :: py "x" ++ hex 2 c
  else if (c <? 65536)%N then BACKSLASH :: py "u" ++ hex 4 c
  else BACKSLASH :: py "U" ++ hex 8 c.

Definition repr_char (quote c : N) : pystr :=
  if (c =? quote)%N || (c =? BACKSLASH)%N then [BACKSLASH; c]
  else if (c =? 9)%N then BACKSLASH :: py "t"
  else if (c =? 10)%N then BACKSLASH :: py "n"
  else if (c =? 13)%N then BACKSLASH :: py "r"
  else if isprintable c then [c]
  else escape_hex c.

(** [repr(s)] for a [str]: single quotes unless the text has a single
    quote and no double quote. *)
Definition repr (s : pystr) : pystr :=
  let quote := if contains SQUOTE s && negb (contains DQUOTE s)
               then DQUOTE else SQUOTE in
  quote :: flat_map (repr_char quote) s ++ [quote].
End Repr.

End PyStr.
Import PyStr.

(* ================================================================== *)
(** ** Python values, as [json] hands them to the program *)

#[warnings="-register-all"]
Inductive pyval : Type :=
| PyNone
| PyBool (b : bool)
| PyInt (z : Z)
| PyFloat (shortest : string)   (* a float, named by its [repr] *)
| PyStr (s : pystr)
| PyList (items : list pyval)
| PyDict (items : list (pystr * pyval)).   (* insertion order, keys are [str] *)

(** Exception classes the program meets.  All of them derive from
    [Exception]; the two SMTP classes and the [requests] class are the ones
    an [except] clause of the module names. *)
Inductive exc_class : Type :=
| SMTPAuthenticationError
| SMTPException
| RequestException
| BadRequest
| AttributeError
| KeyError
| TypeError
| UnicodeEncodeError
| OtherException.

Record exn : Type := mkExn { exn_class : exc_class; exn_str : pystr }.

(** [isinstance(e, smtplib.SMTPException)] *)
Definition is_SMTPException (e : exn) : bool :=
  match exn_class e with
  | SMTPAuthenticationError | SMTPException => true
  | _ => false
  end.

Definition is_SMTPAuthenticationError (e : exn) : bool :=
  match exn_class e with SMTPAuthenticationError => true | _ => false end.

Definition is_RequestException (e : exn) : bool :=
  match exn_class e with RequestException => true | _ => false end.

(** [isinstance(e, Exception)] *)
Definition is_Exception (e : exn) : bool := true.

Module PyVal.
Section WithUnicode.
Variable unicode_printable : N -> bool.

Definition repr_bool (b : bool) : pystr := if b then py "True" else py "False".

Fixpoint repr (v : pyval) : pystr :=
  match v with
  | PyNone => py "None"
  | PyBool b => repr_bool b
  | PyInt z => PyStr.of_Z z
  | PyFloat r => py r
  | PyStr s => PyStr.repr unicode_printable s
  | PyList l =>
      py "[" ++ join (py ", ") (map repr l) ++ py "]"
  | PyDict d =>
      py "{" ++
      join (py ", ")
           ((fix items (d : list (pystr * pyval)) : list pystr :=
               match d with
               | [] => []
               | (k, x) :: d' =>
                   (PyStr.repr unicode_printable k ++ py ": " ++ repr x) :: items d'
               end) d) ++
      py "}"
  end.

(** [str(v)], which is also what an f-string field [{v}] renders. *)
Definition str (v : pyval) : pystr :=
  match v with
  | PyStr s => s
  | _ => repr v
  end.
End WithUnicode.

Definition type_name (v : pyval) : pystr :=
  match v with
  | PyNone => py "NoneType"
  | PyBool _ => py "bool"
  | PyInt _ => py "int"
  | PyFloat _ => py "float"
  | PyStr _ => py "str"
  | PyList _ => py "list"
  | PyDict _ => py "dict"
  end.

Definition is_dict (v : pyval) : bool :=
  match v with PyDict _ => true | _ => false end.

Fixpoint lookup (d : list (pystr * pyval)) (k : pystr) : option pyval :=
  match d with
  | [] => None
  | (k', v) :: d' => if PyStr.eqb k' k then Some v else lookup d' k
  end.

(** [d.get(k, default)] on a [dict]. *)
Definition dict_get (d : list (pystr * pyval)) (k : pystr) (default : pyval)
  : pyval :=
  match lookup d k with Some x => x | None => default end.

(** [v.get(k, default)]: defined on a [dict] only; every other JSON value
    has no attribute [get]. *)
Definition get (v : pyval) (k : pystr) (default : pyval) : exn + pyval :=
  match v with
  | PyDict d => inr (dict_get d k default)
  | _ =>
      inl (mkExn AttributeError
             (py "'" ++ type_name v ++ py "' object has no attribute 'get'"))
  end.
End PyVal.

(* ================================================================== *)
(** ** The world outside the interpreter, and the effect monad *)

(** One MIME text part: the charset [MIMEText] settled on and the text. *)
Inductive charset : Type := us_ascii | utf_8.

Record MIMEPart : Type := mkPart { part_charset : charset; part_text : pystr }.

(** The [MIMEMultipart] message [send_email_alert] builds.  A header whose
    value is [None] (an unset environment variable) is stored as such. *)
Record Message : Type := mkMessage {
  msg_From : option pystr;
  msg_To : option pystr;
  msg_Subject : pystr;
  msg_parts : list MIMEPart
}.

Inductive level : Type := INFO | ERROR.

(** What the program does to its surroundings, in order of occurrence.  An
    SMTP or HTTP event carries what the other side answered: [None] for
    success, [Some e] for the exception the library raised. *)
Inductive event : Type :=
| Log (lvl : level) (text : pystr)
| SmtpLogin (raised : option exn)
| SmtpSend (m : Message) (raised : option exn)
| HttpPost (url : pystr) (answer : exn + pyval)
| Print (text : pystr)
| AppRun (raised : option exn).

Record World : Type := mkWorld {
  webhook_count : Z;
  webhook_url : option pyval;
  trace : list event
}.

(** Module start: [webhook_count = 0], [webhook_url = None], nothing done yet. *)
Definition initial_world : World :=
  {| webhook_count := 0; webhook_url := None; trace := [] |}.

(** What unwinds the interpreter's stack: an [Exception] instance, or
    [SystemExit], which derives from [BaseException] only and so passes
    through [except Exception]. *)
Inductive signal : Type :=
| Exc (e : exn)
| SystemExit (code : Z).

Inductive outcome (A : Type) : Type :=
| Return (a : A)
| Raise (s : signal).
Arguments Return {A} a.
Arguments Raise {A} s.

Definition M (A : Type) : Type := World -> outcome A * World.

Definition ret {A} (a : A) : M A := fun w => (Return a, w).

Definition bind {A B} (m : M A) (k : A -> M B) : M B :=
  fun w => match m w with
           | (Return a, w') => k a w'
           | (Raise s, w') => (Raise s, w')
           end.

Definition raise {A} (e : exn) : M A := fun w => (Raise (Exc e), w).

(** [sys.exit(code)] *)
Definition sys_exit {A} (code : Z) : M A := fun w => (Raise (SystemExit code), w).

Definition lift {A} (r : exn + A) : M A :=
  match r with inl e => raise e | inr a => ret a end.

Declare Scope py_scope.
Delimit Scope py_scope with py_m.
Notation "x <- m ;; k" := (bind m (fun x => k))
  (at level 100, m at next level, right associativity) : py_scope.
Notation "m ;; k" := (bind m (fun _ => k))
  (at level 100, right associativity) : py_scope.
Notation "' pat <- m ;; k" := (bind m (fun x => match x with pat => k end))
  (at level 100, pat pattern, m at next level, right associativity) : py_scope.

(** An [except C as e: h] clause: the class test and the handler. *)
Definition clause (A : Type) : Type := ((exn -> bool) * (exn -> M A))%type.

Fixpoint dispatch {A} (clauses : list (clause A)) (e : exn) : option (M A) :=
  match clauses with
  | [] => None
  | (test, handler) :: rest =>
      if test e then Some (handler e) else dispatch rest e
  end.

(** [try: body  except C1 as e: h1  except C2 as e: h2 ...]: the first
    clause whose class matches runs, in the state the body left behind; an
    unmatched exception, and [SystemExit], keep unwinding. *)
Definition try_except {A} (body : M A) (clauses : list (clause A)) : M A :=
  fun w => match body w with
           | (Return a, w') => (Return a, w')
           | (Raise (Exc e), w') =>
               match dispatch clauses e with
               | Some handler => handler w'
               | None => (Raise (Exc e), w')
               end
           | (Raise (SystemExit c), w') => (Raise (SystemExit c), w')
           end.

Definition emit (ev : event) : M unit :=
  fun w => (Return tt, {| webhook_count := webhook_count w;
                          webhook_url := webhook_url w;
                          trace := trace w ++ [ev] |}).

Definition logger_info (text : pystr) : M unit := emit (Log INFO text).
Definition logger_error (text : pystr) : M unit := emit (Log ERROR text).

(* ================================================================== *)
(** ** Library calls the module relies on *)

Module Lib.

(** Length of the run of surrogates at the head of [s]. *)
Fixpoint surrogate_run (s : pystr) : N :=
  match s with
  | c :: s' => if is_surrogate c then N.succ (surrogate_run s') else 0%N
  | [] => 0%N
  end.

(** Position, code point and run length of the first surrogate of [s],
    counting positions from [pos]. *)
Fixpoint first_surrogate (pos : N) (s : pystr) : option (N * N * N) :=
  match s with
  | [] => None
  | c :: s' =>
      if is_surrogate c then Some (pos, c, N.succ (surrogate_run s'))
      else first_surrogate (N.succ pos) s'
  end.

Definition of_N (n : N) : pystr := PyStr.of_Z (Z.of_N n).

(** [text.encode('utf-8')] refuses surrogates; this is the text of the
    [UnicodeEncodeError] it raises. *)
Definition utf8_encode_error (pos c run : N) : exn :=
  mkExn UnicodeEncodeError
    (if (run =? 1)%N
     then py "'utf-8' codec can't encode character '" ++ BACKSLASH :: py "u" ++
          hex 4 c ++ py "' in position " ++ of_N pos ++
          py ": surrogates not allowed"
     else py "'utf-8' codec can't encode characters in position " ++ of_N pos ++
          py "-" ++ of_N (pos + run - 1)%N ++ py ": surrogates not allowed").

(** [MIMEText(text, "plain")] from [email.mime.text]: the charset is
    us-ascii when the text encodes in it and utf-8 otherwise, and the
    payload is the text encoded in that charset, so a text holding a
    surrogate code point raises [UnicodeEncodeError]. *)
Definition MIMEText (text : pystr) : exn + MIMEPart :=
  if forallb is_ascii text then inr (mkPart us_ascii text)
  else match first_surrogate 0%N text with
       | Some (pos, c, run) => inl (utf8_encode_error pos c run)
       | None => inr (mkPart utf_8 text)
       end.

(** Position, code point and run length of the first code point of [s] that
    a UTF-8 encoder cannot write, counting positions from [pos]: a surrogate
    the error handler does not escape.  The reported run extends to the end
    of the consecutive surrogates. *)
Fixpoint first_unencodable (escapes : N -> bool) (pos : N) (s : pystr)
  : option (N * N * N) :=
  match s with
  | [] => None
  | c :: s' =>
      if is_surrogate c && negb (escapes c)
      then Some (pos, c, N.succ (surrogate_run s'))
      else first_unencodable escapes (N.succ pos) s'
  end.

(** [v[k]] for a [str] key [k]. *)
Definition getitem (unicode_printable : N -> bool) (v : pyval) (k : pystr)
  : exn + pyval :=
  match v with
  | PyDict d =>
      match PyVal.lookup d k with
      | Some x => inr x
      | None => inl (mkExn KeyError (PyStr.repr unicode_printable k))
      end
  | PyList _ =>
      inl (mkExn TypeError (py "list indices must be integers or slices, not str"))
  | PyStr _ =>
      inl (mkExn TypeError (py "string indices must be integers, not 'str'"))
  | _ =>
      inl (mkExn TypeError
             (py "'" ++ PyVal.type_name v ++ py "' object is not subscriptable"))
  end.

(** [jsonify({"status": status, "message": message})] *)
Definition jsonify (status message : pystr) : pyval :=
  PyDict [(py "status", PyStr status); (py "message", PyStr message)].

End Lib.

(** What [request.json] gives for an inbound POST: the parsed body, or the
    exception Flask raises for a body that is not JSON. *)
Inductive request : Type :=
| JsonBody (data : pyval)
| BadBody (e : exn).

(** A Flask view's return value: the JSON document and the status code. *)
Definition response : Type := (pyval * Z)%type.

(** The error handler of the standard output stream.  The interpreter picks
    [strict] under a UTF-8 locale and [surrogateescape] under the C locale;
    the others are set through [PYTHONIOENCODING]. *)
Inductive error_handler : Type :=
| strict
| surrogateescape
| surrogatepass
| replace
| ignore
| backslashreplace
| xmlcharrefreplace
| namereplace.

(** Whether the handler [h] writes something for the surrogate [c] instead
    of raising: [surrogateescape] turns U+DC80..U+DCFF back into single
    bytes and leaves the other surrogates to the encoder, [strict] handles
    none, and the remaining handlers substitute or drop every code point
    they are given. *)
Definition escapes (h : error_handler) (c : N) : bool :=
  match h with
  | strict => false
  | surrogateescape => ((56448 <=? c) && (c <=? 56575))%N
  | surrogatepass | replace | ignore | backslashreplace
  | xmlcharrefreplace | namereplace => true
  end.

(** The surroundings of one run of the program.  Every oracle reads the trace
    so far, so an answer may change from one call to the next.  The SMTP
    host, port and password only travel to the server and are part of what
    the SMTP oracles stand for. *)
Record Env : Type := mkEnv {
  unicode_printable : N -> bool;
  SENDER_EMAIL : option pystr;
  (** [sys.stdout.errors]; the stream encodes in UTF-8 and takes every
      byte string it is given, so that only the encoding can fail *)
  stdout_errors : error_handler;
  (** [with smtplib.SMTP(..) as server: starttls(); login(..)] *)
  smtp_login_session : list event -> option exn;
  (** the same session followed by [server.send_message(message)] *)
  smtp_send_session : list event -> Message -> option exn;
  (** [requests.post(url)], [raise_for_status()] and [response.json()] *)
  requests_post : list event -> pystr -> exn + pyval;
  (** [app.run(debug=True, port=5000)], from start to the listener's end *)
  app_run : list event -> option exn
}.

(* ================================================================== *)
(** ** The program *)

Definition WEBHOOK_SITE_API : pystr := py "https://webhook.site/token".
Definition MAX_WEBHOOKS : Z := 3.

Section Program.
Variable env : Env.
Local Open Scope py_scope.

Local Abbreviation upr := (unicode_printable env).

(** Run an external session: ask the oracle, record the event, and raise
    what the library raised. *)
Definition smtp_login : M unit :=
  fun w =>
    let r := smtp_login_session env (trace w) in
    (match r with None => ret tt | Some e => raise e end)
      (snd (emit (SmtpLogin r) w)).

Definition smtp_send (message : Message) : M unit :=
  fun w =>
    let r := smtp_send_session env (trace w) message in
    (match r with None => ret tt | Some e => raise e end)
      (snd (emit (SmtpSend message r) w)).

Definition http_post_json (url : pystr) : M pyval :=
  fun w =>
    let r := requests_post env (trace w) url in
    lift r (snd (emit (HttpPost url r) w)).

(** [print(text)]: the text is encoded for the standard output before
    anything is written, so a text the stream cannot encode raises
    [UnicodeEncodeError] and prints nothing. *)
Definition print (text : pystr) : M unit :=
  match Lib.first_unencodable (escapes (stdout_errors env)) 0%N text with
  | Some (pos, c, run) => raise (Lib.utf8_encode_error pos c run)
  | None => emit (Print text)
  end.

Definition flask_run : M unit :=
  fun w =>
    let r := app_run env (trace w) in
    (match r with None => ret tt | Some e => raise e end)
      (snd (emit (AppRun r) w)).

Definition create_webhook : M pyval :=
  try_except
    (data <- http_post_json WEBHOOK_SITE_API ;;
     lift (Lib.getitem upr data (py "url")))
    [(is_RequestException,
      fun e =>
        logger_error (py "Failed to create webhook: " ++ exn_str e) ;;
        raise e)].

Definition test_email_login : M bool :=
  try_except
    (smtp_login ;;
     logger_info (py "Email login successful") ;;
     ret true)
    [(is_SMTPAuthenticationError,
      fun _ =>
        logger_error (py "Failed to authenticate with the SMTP server. Please check your email and password.") ;;
        ret false);
     (is_SMTPException,
      fun e =>
        logger_error (py "An error occurred while testing email login: " ++ exn_str e) ;;
        ret false);
     (is_Exception,
      fun e =>
        logger_error (py "An unexpected error occurred during email login test: " ++ exn_str e) ;;
        ret false)].

Definition send_email_alert (subject body : pystr) : M (bool * pystr) :=
  part <- lift (Lib.MIMEText body) ;;
  let message := {| msg_From := SENDER_EMAIL env;
                    msg_To := SENDER_EMAIL env;
                    msg_Subject := subject;
                    msg_parts := [part] |} in
  try_except
    (smtp_send message ;;
     logger_info (py "Email alert sent successfully") ;;
     ret (true, py "Email sent successfully"))
    [(is_SMTPException,
      fun e =>
        let error_msg := py "An error occurred while sending the email: " ++ exn_str e in
        logger_error error_msg ;;
        ret (false, error_msg));
     (is_Exception,
      fun e =>
        let error_msg := py "An unexpected error occurred: " ++ exn_str e in
        logger_error error_msg ;;
        ret (false, error_msg))].

Definition process_webhook_data (data : pyval) : exn + pyval :=
  match PyVal.get data (py "event_type") (PyStr (py "Unknown")) with
  | inl e => inl e
  | inr event_type =>
      match PyVal.get data (py "timestamp") PyNone with
      | inl e => inl e
      | inr timestamp =>
          match PyVal.get data (py "details") (PyDict []) with
          | inl e => inl e
          | inr details =>
              inr (PyDict [(py "event_type", event_type);
                           (py "timestamp", timestamp);
                           (py "details", details)])
          end
      end
  end.

Definition request_json (req : request) : M pyval :=
  match req with
  | JsonBody data => ret data
  | BadBody e => raise e
  end.

(** [webhook_count += 1] *)
Definition incr_webhook_count : M unit :=
  fun w => (Return tt, {| webhook_count := webhook_count w + 1;
                          webhook_url := webhook_url w;
                          trace := trace w |}).

Definition get_webhook_count : M Z := fun w => (Return (webhook_count w), w).

Definition set_webhook_url (url : pyval) : M unit :=
  fun w => (Return tt, {| webhook_count := webhook_count w;
                          webhook_url := Some url;
                          trace := trace w |}).

Definition final_subject : pystr := py "Webhook Processing Complete".
Definition final_body : pystr :=
  py "All " ++ PyStr.of_Z MAX_WEBHOOKS ++
  py " webhooks have been processed. The system will now stop accepting new webhooks.".

Definition alert_subject (count : Z) (event_type : pyval) : pystr :=
  py "Webhook Alert " ++ PyStr.of_Z count ++ py "/" ++ PyStr.of_Z MAX_WEBHOOKS ++
  py ": " ++ PyVal.str upr event_type.

Definition alert_body (processed_data : pyval) : pystr :=
  py "Processed webhook data:" ++ NL ++ PyVal.str upr processed_data.

(** The [try] block of [webhook_handler]. *)
Definition webhook_handler_body (req : request) : M response :=
  data <- request_json req ;;
  logger_info (py "Received webhook data: " ++ PyVal.str upr data) ;;
  processed_data <- lift (process_webhook_data data) ;;
  incr_webhook_count ;;
  count <- get_webhook_count ;;
  event_type <- lift (Lib.getitem upr processed_data (py "event_type")) ;;
  r <- send_email_alert (alert_subject count event_type) (alert_body processed_data) ;;
  let (success, message) := r in
  if negb success then
    ret (Lib.jsonify (py "error") message, 500%Z)
  else
    count' <- get_webhook_count ;;
    (if (MAX_WEBHOOKS <=? count')%Z then
       send_email_alert final_subject final_body ;;
       logger_info (py "Maximum number of webhooks processed. Stopping.")
     else ret tt) ;;
    ret (Lib.jsonify (py "success") (py "Webhook processed and alert sent"), 200%Z).

Definition webhook_handler (req : request) : M response :=
  try_except
    (webhook_handler_body req)
    [(is_Exception,
      fun e =>
        logger_error (py "Error processing webhook: " ++ exn_str e) ;;
        ret (Lib.jsonify (py "error") (exn_str e), 500%Z))].

(** The block under [if __name__ == "__main__":]. *)
Definition main : M unit :=
  try_except
    (ok <- test_email_login ;;
     (if negb ok then
        logger_error (py "Email login failed. Please check your credentials and try again.") ;;
        sys_exit 1
      else ret tt) ;;
     url <- create_webhook ;;
     set_webhook_url url ;;
     logger_info (py "Created webhook: " ++ PyVal.str upr url) ;;
     print (py "Webhook URL: " ++ PyVal.str upr url) ;;
     print (py "Please configure your service to send webhooks to this URL.") ;;
     flask_run)
    [(is_Exception,
      fun e =>
        logger_error (py "Failed to start the application: " ++ exn_str e) ;;
        sys_exit 1)].

(** The status the process ends with: the argument of [sys.exit], 0 when
    the block runs to its end, 1 for an exception nobody caught. *)
Definition exit_status (r : outcome unit * World) : Z :=
  match fst r with
  | Return _ => 0
  | Raise (SystemExit c) => c
  | Raise (Exc _) => 1
  end.

End Program.

(* ================================================================== *)
(** ** Observations on worlds and traces *)

(** The world [w] after [evs] more events. *)
Definition add_events (w : World) (evs : list event) : World :=
  {| webhook_count := webhook_count w;
     webhook_url := webhook_url w;
     trace := trace w ++ evs |}.

(** Subjects of the messages handed to an SMTP session, oldest first. *)
Fixpoint sent_subjects (tr : list event) : list pystr :=
  match tr with
  | [] => []
  | SmtpSend m _ :: tr' => msg_Subject m :: sent_subjects tr'
  | _ :: tr' => sent_subjects tr'
  end.

(** Texts of the messages handed to an SMTP session, oldest first. *)
Fixpoint sent_bodies (tr : list event) : list pystr :=
  match tr with
  | [] => []
  | SmtpSend m _ :: tr' => flat_map part_text (msg_parts m) :: sent_bodies tr'
  | _ :: tr' => sent_bodies tr'
  end.

(** URLs the program posted to. *)
Fixpoint http_posts (tr : list event) : list pystr :=
  match tr with
  | [] => []
  | HttpPost url _ :: tr' => url :: http_posts tr'
  | _ :: tr' => http_posts tr'
  end.

(** What was logged at level [ERROR]. *)
Fixpoint logged_errors (tr : list event) : list pystr :=
  match tr with
  | [] => []
  | Log ERROR text :: tr' => text :: logged_errors tr'
  | _ :: tr' => logged_errors tr'
  end.

(** The events between an earlier world and a later one. *)
Definition events_since (w w' : World) : list event :=
  skipn (List.length (trace w)) (trace w').

(** The text [send_email_alert] reports for an exception of the session. *)
Definition send_failure_message (e : exn) : pystr :=
  if is_SMTPException e
  then py "An error occurred while sending the email: " ++ exn_str e
  else py "An unexpected error occurred: " ++ exn_str e.

(** The record [process_webhook_data] builds from a [dict]. *)
Definition processed (d : list (pystr * pyval)) : pyval :=
  PyDict [(py "event_type", PyVal.dict_get d (py "event_type") (PyStr (py "Unknown")));
          (py "timestamp", PyVal.dict_get d (py "timestamp") PyNone);
          (py "details", PyVal.dict_get d (py "details") (PyDict []))].

(** The world in which the handler sends the per-event alert: the payload
    has been logged and the counter incremented. *)
Definition counted (env : Env) (data : pyval) (w : World) : World :=
  {| webhook_count := webhook_count w + 1;
     webhook_url := webhook_url w;
     trace := trace w ++
              [Log INFO (py "Received webhook data: " ++
                         PyVal.str (unicode_printable env) data)] |}.

(** The handler's first call of [send_email_alert] for a [dict] payload. *)
Definition per_event_alert (env : Env) (d : list (pystr * pyval)) (w : World)
  : outcome (bool * pystr) * World :=
  send_email_alert env
    (alert_subject env (webhook_count w + 1)
       (PyVal.dict_get d (py "event_type") (PyStr (py "Unknown"))))
    (alert_body env (processed d))
    (counted env (PyDict d) w).

(** The handler run over a list of requests, one after the other. *)
Fixpoint serve (env : Env) (reqs : list request) (w : World) : World :=
  match reqs with
  | [] => w
  | req :: rest => serve env rest (snd (webhook_handler env req w))
  end.

Definition success_response : response :=
  (Lib.jsonify (py "success") (py "Webhook processed and alert sent"), 200%Z).

Definition error_response (message : pystr) : response :=
  (Lib.jsonify (py "error") message, 500%Z).

(** The text [test_email_login] logs for an exception of the session. *)
Definition login_failure_message (e : exn) : pystr :=
  if is_SMTPAuthenticationError e
  then py "Failed to authenticate with the SMTP server. Please check your email and password."
  else if is_SMTPException e
  then py "An error occurred while testing email login: " ++ exn_str e
  else py "An unexpected error occurred during email login test: " ++ exn_str e.

(* ================================================================== *)
(** ** Concrete surroundings, used to run the program on examples *)

Module Examples.

(** The body [{"event_type": "ping"}]. *)
Definition ping : list (pystr * pyval) := [(py "event_type", PyStr (py "ping"))].

Definition ping_request : request := JsonBody (PyDict ping).

Definition url_answer : pyval :=
  PyDict [(py "url", PyStr (py "https://webhook.site/0000"))].

Definition refused : exn := mkExn SMTPException (py "Connection unexpectedly closed").

(** Every server answers and accepts. *)
Definition working : Env :=
  {| unicode_printable := fun _ => true;
     stdout_errors := strict;
     SENDER_EMAIL := Some (py "alerts@example.org");
     smtp_login_session := fun _ => None;
     smtp_send_session := fun _ _ => None;
     requests_post := fun _ _ => inr url_answer;
     app_run := fun _ => None |}.

(** The SMTP server refuses every session; the rest works. *)
Definition smtp_down : Env :=
  {| unicode_printable := fun _ => true;
     stdout_errors := strict;
     SENDER_EMAIL := Some (py "alerts@example.org");
     smtp_login_session :=
       fun _ => Some (mkExn SMTPAuthenticationError (py "(535, b'Bad credentials')"));
     smtp_send_session := fun _ _ => Some refused;
     requests_post := fun _ _ => inr url_answer;
     app_run := fun _ => None |}.


(** Mail works, webhook.site cannot be reached. *)
Definition provisioner_down : Env :=
  {| unicode_printable := fun _ => true;
     stdout_errors := strict;
     SENDER_EMAIL := Some (py "alerts@example.org");
     smtp_login_session := fun _ => None;
     smtp_send_session := fun _ _ => None;
     requests_post :=
       fun _ _ => inl (mkExn RequestException (py "503 Server Error: Service Unavailable"));
     app_run := fun _ => None |}.

End Examples.

(** No code point of [s] is a surrogate, so [s.encode('utf-8')] succeeds. *)
Definition encodable (s : pystr) : bool :=
  forallb (fun c => negb (is_surrogate c)) s.

(** Structural induction on Python values that reaches inside lists and
    dictionaries. *)
Section PyvalInduction.
Variable P : pyval -> Prop.
Hypothesis HNone : P PyNone.
Hypothesis HBool : forall b, P (PyBool b).
Hypothesis HInt : forall z, P (PyInt z).
Hypothesis HFloat : forall r, P (PyFloat r).
Hypothesis HStr : forall s, P (PyStr s).
Hypothesis HList : forall l, Forall P l -> P (PyList l).
Hypothesis HDict : forall d, Forall (fun kv => P (snd kv)) d -> P (PyDict d).

Fixpoint pyval_nested_ind (v : pyval) : P v :=
  match v with
  | PyNone => HNone
  | PyBool b => HBool b
  | PyInt z => HInt z
  | PyFloat r => HFloat r
  | PyStr s => HStr s
  | PyList l =>
      HList l
        ((fix all (l : list pyval) : Forall P l :=
            match l with
            | [] => Forall_nil P
            | x :: l' => Forall_cons x (pyval_nested_ind x) (all l')
            end) l)
  | PyDict d =>
      HDict d
        ((fix all (d : list (pystr * pyval)) : Forall (fun kv => P (snd kv)) d :=
            match d with
            | [] => Forall_nil _
            | (k, x) :: d' =>
                Forall_cons (k, x) (pyval_nested_ind x : P (snd (k, x))) (all d')
            end) d)
  end.
End PyvalInduction.

(** Messages handed to an SMTP session, oldest first. *)
Fixpoint sent_messages (tr : list event) : list Message :=
  match tr with
  | [] => []
  | SmtpSend m _ :: tr' => m :: sent_messages tr'
  | _ :: tr' => sent_messages tr'
  end.

(** Answers of the login-only SMTP sessions, oldest first. *)
Fixpoint login_sessions (tr : list event) : list (option exn) :=
  match tr with
  | [] => []
  | SmtpLogin r :: tr' => r :: login_sessions tr'
  | _ :: tr' => login_sessions tr'
  end.

(** Answers of the listener runs, oldest first. *)
Fixpoint listener_runs (tr : list event) : list (option exn) :=
  match tr with
  | [] => []
  | AppRun r :: tr' => r :: listener_runs tr'
  | _ :: tr' => listener_runs tr'
  end.

(** Everything logged, with its level. *)
Fixpoint logged (tr : list event) : list (level * pystr) :=
  match tr with
  | [] => []
  | Log lvl text :: tr' => (lvl, text) :: logged tr'
  | _ :: tr' => logged tr'
  end.

(** Events a request handler may cause: log records and mail. *)
Definition mail_or_log (ev : event) : bool :=
  match ev with
  | Log _ _ | SmtpSend _ _ => true
  | _ => false
  end.

(** The request carries a JSON object. *)
Definition is_object_request (req : request) : bool :=
  match req with
  | JsonBody (PyDict _) => true
  | _ => false
  end.

(** The per-event alert of a request went out: its call of
    [send_email_alert] answered [True]. *)
Definition delivered (env : Env) (d : list (pystr * pyval)) (w : World) : bool :=
  match fst (per_event_alert env d w) with
  | Return (true, _) => true
  | _ => false
  end.

(** The world after [webhook_url = url]. *)
Definition with_url (w : World) (url : pyval) : World :=
  {| webhook_count := webhook_count w;
     webhook_url := Some url;
     trace := trace w |}.


(** The exception [print(text)] raises on the standard output of [env], if
    any. *)
Definition print_failure (env : Env) (text : pystr) : option exn :=
  match Lib.first_unencodable (escapes (stdout_errors env)) 0%N text with
  | Some (pos, c, run) => Some (Lib.utf8_encode_error pos c run)
  | None => None
  end.

(** A message whose sender and recipient are both the configured address. *)
Definition self_addressed (env : Env) (m : Message) : Prop :=
  msg_From m = SENDER_EMAIL env /\ msg_To m = SENDER_EMAIL env.

(** Events made of log records and at most [n] messages, all of them
    self-addressed. *)
Definition footprint (env : Env) (n : nat) (evs : list event) : Prop :=
  forallb mail_or_log evs = true /\
  (List.length (sent_messages evs) <= n)%nat /\
  Forall (self_addressed env) (sent_messages evs).

Module MoreExamples.

(** webhook.site answers with a JSON object that has no ["url"] field. *)
Definition no_url : Env :=
  {| unicode_printable := fun _ => true;
     stdout_errors := strict;
     SENDER_EMAIL := Some (py "alerts@example.org");
     smtp_login_session := fun _ => None;
     smtp_send_session := fun _ _ => None;
     requests_post := fun _ _ => inr (PyDict [(py "uuid", PyStr (py "0000"))]);
     app_run := fun _ => None |}.


(** A body without the [event_type] key. *)
Definition untyped : list (pystr * pyval) := [(py "id", PyInt 7)].

(** webhook.site answers with a URL that holds a lone surrogate (the JSON
    text ["\ud800"]); the standard output is strict UTF-8. *)
Definition surrogate_url : Env :=
  {| unicode_printable := fun _ => true;
     stdout_errors := strict;
     SENDER_EMAIL := Some (py "alerts@example.org");
     smtp_login_session := fun _ => None;
     smtp_send_session := fun _ _ => None;
     requests_post := fun _ _ => inr (PyDict [(py "url", PyStr [55296%N])]);
     app_run := fun _ => None |}.

End MoreExamples.

(* ================================================================== *)
(** ** Basic facts *)

Lemma pystr_eqb_spec (a b : pystr) : reflect (a = b) (PyStr.eqb a b).
Proof.
  revert b; induction a as [|x a IH]; intros [|y b]; simpl;
    try (constructor; congruence).
  destruct (N.eqb_spec x y) as [->|Hxy]; simpl.
  - destruct (IH b) as [->|Hab]; constructor; congruence.
  - constructor; congruence.
Qed.

Lemma pystr_eqb_refl (a : pystr) : PyStr.eqb a a = true.
Proof. destruct (pystr_eqb_spec a a); congruence. Qed.

Lemma add_events_nil w : add_events w [] = w.
Proof. destruct w; unfold add_events; simpl; now rewrite app_nil_r. Qed.

Lemma add_events_app w evs evs' :
  add_events (add_events w evs) evs' = add_events w (evs ++ evs').
Proof. unfold add_events; simpl; now rewrite app_assoc. Qed.

Lemma events_since_add w evs : events_since w (add_events w evs) = evs.
Proof.
  unfold events_since, add_events; simpl.
  rewrite skipn_app, skipn_all, Nat.sub_diag; reflexivity.
Qed.

Lemma sent_subjects_app tr tr' :
  sent_subjects (tr ++ tr') = sent_subjects tr ++ sent_subjects tr'.
Proof.
  induction tr as [|ev tr IH]; simpl; [reflexivity|].
  destruct ev; simpl; rewrite IH; reflexivity.
Qed.

Lemma http_posts_app tr tr' :
  http_posts (tr ++ tr') = http_posts tr ++ http_posts tr'.
Proof.
  induction tr as [|ev tr IH]; simpl; [reflexivity|].
  destruct ev; simpl; rewrite IH; reflexivity.
Qed.


Lemma lookup_Some_In d k v :
  PyVal.lookup d k = Some v -> In (k, v) d.
Proof.
  induction d as [|[k' v'] d IH]; simpl; [discriminate|].
  destruct (pystr_eqb_spec k' k) as [->|Hne].
  - intros [= ->]; now left.
  - intros H; right; auto.
Qed.

(** Equalities between worlds that differ by the bracketing of the trace. *)
Ltac world_eq :=
  unfold add_events, counted; simpl;
  repeat rewrite <- app_assoc; simpl; reflexivity.

Section Mailer.
Variable env : Env.

(** [send_email_alert] in one equation: the message is built first, outside
    the [try]; the session's exceptions all end in the result pair. *)
Lemma send_email_alert_eq subject body w :
  send_email_alert env subject body w =
  match Lib.MIMEText body with
  | inl e => (Raise (Exc e), w)
  | inr part =>
      let message := {| msg_From := SENDER_EMAIL env;
                        msg_To := SENDER_EMAIL env;
                        msg_Subject := subject;
                        msg_parts := [part] |} in
      match smtp_send_session env (trace w) message with
      | None =>
          (Return (true, py "Email sent successfully"),
           add_events w [SmtpSend message None;
                         Log INFO (py "Email alert sent successfully")])
      | Some e =>
          (Return (false, send_failure_message e),
           add_events w [SmtpSend message (Some e);
                         Log ERROR (send_failure_message e)])
      end
  end.
Proof.
  unfold send_email_alert, bind, lift.
  destruct (Lib.MIMEText body) as [e|part]; [reflexivity|].
  cbn [ret]. unfold try_except, smtp_send, bind.
  destruct (smtp_send_session env (trace w) _) as [e|] eqn:Hs; cbn.
  - unfold send_failure_message, is_SMTPException.
    destruct e as [[] msg]; cbn; f_equal; world_eq.
  - f_equal; world_eq.
Qed.

(** With a body [MIMEText] accepts, the call returns a pair. *)
Lemma send_email_alert_returns subject body part w :
  Lib.MIMEText body = inr part ->
  exists ok message w',
    send_email_alert env subject body w = (Return (ok, message), w') /\
    webhook_count w' = webhook_count w /\
    webhook_url w' = webhook_url w /\
    exists raised,
      trace w' = trace w ++
                 [SmtpSend (mkMessage (SENDER_EMAIL env) (SENDER_EMAIL env)
                              subject [part]) raised;
                  Log (if ok then INFO else ERROR)
                      (if ok then py "Email alert sent successfully" else message)] /\
      (ok = true <-> raised = None).
Proof.
  intros Hm. rewrite send_email_alert_eq, Hm. cbv zeta.
  destruct (smtp_send_session env (trace w) _) as [e|].
  - exists false, (send_failure_message e), (add_events w [SmtpSend (mkMessage (SENDER_EMAIL env) (SENDER_EMAIL env) subject [part]) (Some e); Log ERROR (send_failure_message e)]).
    repeat split; try reflexivity.
    exists (Some e); repeat split; try reflexivity; discriminate.
  - eexists true, _, _. repeat split; try reflexivity.
    exists None; repeat split; reflexivity.
Qed.

Lemma send_email_alert_count subject body w :
  webhook_count (snd (send_email_alert env subject body w)) = webhook_count w.
Proof.
  rewrite send_email_alert_eq.
  destruct (Lib.MIMEText body); [reflexivity|]. cbv zeta.
  destruct (smtp_send_session env (trace w) _); reflexivity.
Qed.
End Mailer.

Section Handler.
Variable env : Env.

Lemma process_webhook_data_dict d :
  process_webhook_data (PyDict d) = inr (processed d).
Proof. reflexivity. Qed.

Lemma process_webhook_data_not_dict v :
  PyVal.is_dict v = false ->
  process_webhook_data v =
  inl (mkExn AttributeError
         (py "'" ++ PyVal.type_name v ++ py "' object has no attribute 'get'")).
Proof. destruct v; simpl; try reflexivity; discriminate. Qed.

Lemma getitem_processed d :
  Lib.getitem (unicode_printable env) (processed d) (py "event_type") =
  inr (PyVal.dict_get d (py "event_type") (PyStr (py "Unknown"))).
Proof.
  unfold processed, Lib.getitem; cbn [PyVal.lookup].
  rewrite pystr_eqb_refl; reflexivity.
Qed.

(** The fixed completion message is plain ASCII: building it cannot fail. *)
Lemma final_body_encodable :
  Lib.MIMEText final_body = inr (mkPart us_ascii final_body).
Proof. reflexivity. Qed.

Lemma completion_alert_returns w :
  exists ok message w',
    send_email_alert env final_subject final_body w = (Return (ok, message), w').
Proof.
  destruct (send_email_alert_returns env final_subject final_body _ w
              final_body_encodable) as (ok & m & w' & H & _).
  eauto.
Qed.

(** The handler on a JSON object, split at its first [send_email_alert]. *)
Lemma webhook_handler_dict d w :
  webhook_handler env (JsonBody (PyDict d)) w =
  match per_event_alert env d w with
  | (Return (true, _), w2) =>
      if (MAX_WEBHOOKS <=? webhook_count w + 1)%Z then
        (Return success_response,
         add_events (snd (send_email_alert env final_subject final_body w2))
           [Log INFO (py "Maximum number of webhooks processed. Stopping.")])
      else (Return success_response, w2)
  | (Return (false, message), w2) => (Return (error_response message), w2)
  | (Raise (Exc e), w2) =>
      (Return (error_response (exn_str e)),
       add_events w2 [Log ERROR (py "Error processing webhook: " ++ exn_str e)])
  | (Raise (SystemExit c), w2) => (Raise (SystemExit c), w2)
  end.
Proof.
  unfold webhook_handler, webhook_handler_body, try_except, per_event_alert.
  unfold bind at 1. cbn [request_json ret].
  unfold bind at 1. cbn [logger_info emit].
  unfold bind at 1. rewrite process_webhook_data_dict. cbn [lift ret].
  unfold bind at 1. cbn [incr_webhook_count].
  unfold bind at 1. cbn [get_webhook_count webhook_count].
  unfold bind at 1. rewrite getitem_processed. cbn [lift ret].
  unfold bind at 1. cbn [webhook_count webhook_url trace].
  change (mkWorld (webhook_count w + 1) (webhook_url w) _)
    with (counted env (PyDict d) w).
  pose proof (send_email_alert_count env
                (alert_subject env (webhook_count w + 1)
                   (PyVal.dict_get d (py "event_type") (PyStr (py "Unknown"))))
                (alert_body env (processed d)) (counted env (PyDict d) w)) as Hc.
  destruct (send_email_alert env _ _ (counted env (PyDict d) w))
    as [[[[|] m]|[e|c]] w2]; cbn [snd] in Hc; cbn [counted webhook_count] in Hc.
  - cbn [negb]. unfold bind at 1. cbn [get_webhook_count].
    rewrite Hc. unfold bind at 1.
    destruct (MAX_WEBHOOKS <=? webhook_count w + 1)%Z.
    + unfold bind at 1.
      destruct (completion_alert_returns w2) as (ok & m2 & w3 & ->).
      cbn [logger_info emit ret snd dispatch]. reflexivity.
    + reflexivity.
  - reflexivity.
  - cbn [dispatch is_Exception]. reflexivity.
  - reflexivity.
Qed.
End Handler.

Section Startup.
Variable env : Env.

(** [test_email_login] never raises: it answers [true] exactly when the
    session went through. *)
Lemma test_email_login_eq w :
  test_email_login env w =
  match smtp_login_session env (trace w) with
  | None =>
      (Return true,
       add_events w [SmtpLogin None; Log INFO (py "Email login successful")])
  | Some e =>
      (Return false,
       add_events w [SmtpLogin (Some e); Log ERROR (login_failure_message e)])
  end.
Proof.
  unfold test_email_login, try_except, smtp_login, bind.
  destruct (smtp_login_session env (trace w)) as [e|]; cbn.
  - unfold login_failure_message, is_SMTPAuthenticationError, is_SMTPException.
    destruct e as [[] msg]; cbn; f_equal; world_eq.
  - f_equal; world_eq.
Qed.

(** [create_webhook] posts once; a [RequestException] is logged and raised
    again, every other exception passes through untouched. *)
Lemma create_webhook_eq w :
  create_webhook env w =
  let w1 := add_events w [HttpPost WEBHOOK_SITE_API
                            (requests_post env (trace w) WEBHOOK_SITE_API)] in
  match requests_post env (trace w) WEBHOOK_SITE_API with
  | inr data =>
      match Lib.getitem (unicode_printable env) data (py "url") with
      | inr url => (Return url, w1)
      | inl e =>
          if is_RequestException e
          then (Raise (Exc e),
                add_events w1 [Log ERROR (py "Failed to create webhook: " ++ exn_str e)])
          else (Raise (Exc e), w1)
      end
  | inl e =>
      if is_RequestException e
      then (Raise (Exc e),
            add_events w1 [Log ERROR (py "Failed to create webhook: " ++ exn_str e)])
      else (Raise (Exc e), w1)
  end.
Proof.
  unfold create_webhook, try_except, http_post_json, bind. cbv zeta.
  destruct (requests_post env (trace w) WEBHOOK_SITE_API) as [e|data]; cbn.
  - destruct (is_RequestException e); cbn; f_equal; world_eq.
  - destruct (Lib.getitem _ data _) as [e|url]; cbn; [|reflexivity].
    destruct (is_RequestException e); cbn; f_equal; world_eq.
Qed.

Lemma create_webhook_no_exit w c w' :
  create_webhook env w <> (Raise (SystemExit c), w').
Proof.
  rewrite create_webhook_eq. cbv zeta.
  destruct (requests_post env (trace w) WEBHOOK_SITE_API) as [e|data].
  - destruct (is_RequestException e); discriminate.
  - destruct (Lib.getitem _ data _) as [e|url]; [|discriminate].
    destruct (is_RequestException e); discriminate.
Qed.

Lemma create_webhook_count w :
  webhook_count (snd (create_webhook env w)) = webhook_count w.
Proof.
  rewrite create_webhook_eq. cbv zeta.
  destruct (requests_post env (trace w) WEBHOOK_SITE_API) as [e|data].
  - destruct (is_RequestException e); reflexivity.
  - destruct (Lib.getitem _ data _) as [e|url]; [|reflexivity].
    destruct (is_RequestException e); reflexivity.
Qed.

(** The start-up block when the login probe answers [False]. *)
Lemma main_login_failed w w1 :
  test_email_login env w = (Return false, w1) ->
  main env w =
  (Raise (SystemExit 1),
   add_events w1 [Log ERROR (py "Email login failed. Please check your credentials and try again.")]).
Proof.
  intros H. unfold main, try_except, bind. rewrite H. cbn. reflexivity.
Qed.

(** The start-up block when provisioning raises after a good login. *)
Lemma main_provisioning_failed w w1 e w2 :
  test_email_login env w = (Return true, w1) ->
  create_webhook env w1 = (Raise (Exc e), w2) ->
  main env w =
  (Raise (SystemExit 1),
   add_events w2 [Log ERROR (py "Failed to start the application: " ++ exn_str e)]).
Proof.
  intros H1 H2. unfold main, try_except, bind. rewrite H1. cbn [negb ret].
  rewrite H2. cbn. reflexivity.
Qed.
End Startup.

Lemma sent_bodies_app tr tr' :
  sent_bodies (tr ++ tr') = sent_bodies tr ++ sent_bodies tr'.
Proof.
  induction tr as [|ev tr IH]; simpl; [reflexivity|].
  destruct ev; simpl; rewrite IH; reflexivity.
Qed.

Lemma logged_errors_app tr tr' :
  logged_errors (tr ++ tr') = logged_errors tr ++ logged_errors tr'.
Proof.
  induction tr as [|ev tr IH]; simpl; [reflexivity|].
  destruct ev as [[] ?| | | | |]; simpl; rewrite IH; reflexivity.
Qed.

Lemma events_since_trace w w' evs :
  trace w' = trace w ++ evs -> events_since w w' = evs.
Proof.
  intros H. unfold events_since. rewrite H.
  rewrite skipn_app, skipn_all, Nat.sub_diag; reflexivity.
Qed.

Lemma MIMEText_text body part :
  Lib.MIMEText body = inr part -> part_text part = body.
Proof.
  unfold Lib.MIMEText. destruct (forallb is_ascii body).
  - intros [= <-]; reflexivity.
  - destruct (Lib.first_surrogate 0 body) as [[[pos c] run]|];
      [discriminate | intros [= <-]; reflexivity].
Qed.

Create Rewrite HintDb trace_db.
#[local] Hint Rewrite sent_subjects_app sent_bodies_app logged_errors_app
  http_posts_app : trace_db.

Local Open Scope Z_scope.

Section HandlerFacts.
Variable env : Env.

(** A call of [send_email_alert] that returns has opened exactly one SMTP
    session, for the message with the given subject and text. *)
Lemma send_email_alert_sent subject body w ok m w' :
  send_email_alert env subject body w = (Return (ok, m), w') ->
  exists evs,
    w' = add_events w evs /\
    sent_subjects evs = [subject] /\
    sent_bodies evs = [body] /\
    http_posts evs = [] /\
    logged_errors evs = (if ok then [] else [m]).
Proof.
  rewrite send_email_alert_eq.
  destruct (Lib.MIMEText body) as [e|part] eqn:Hm; [discriminate|].
  apply MIMEText_text in Hm. cbv zeta.
  destruct (smtp_send_session env (trace w) _) as [e|];
    intros [= <- <- <-]; eexists; (split; [reflexivity|]);
    cbn; rewrite Hm, app_nil_r; repeat split; reflexivity.
Qed.

Lemma webhook_handler_dict_count d w :
  webhook_count (snd (webhook_handler env (JsonBody (PyDict d)) w)) =
  webhook_count w + 1.
Proof.
  rewrite webhook_handler_dict. unfold per_event_alert.
  pose proof (send_email_alert_count env
                (alert_subject env (webhook_count w + 1)
                   (PyVal.dict_get d (py "event_type") (PyStr (py "Unknown"))))
                (alert_body env (processed d)) (counted env (PyDict d) w)) as Hc.
  destruct (send_email_alert env _ _ (counted env (PyDict d) w))
    as [[[[|] m]|[e|c]] w2]; cbn [snd counted webhook_count] in Hc;
    try exact Hc.
  destruct (MAX_WEBHOOKS <=? webhook_count w + 1)%Z; [|exact Hc].
  cbn [snd add_events webhook_count].
  rewrite send_email_alert_count. exact Hc.
Qed.

(** The handler on a payload that is not a JSON object: [data.get] raises
    before the counter is touched. *)
Lemma webhook_handler_not_dict v w :
  PyVal.is_dict v = false ->
  webhook_handler env (JsonBody v) w =
  (Return (error_response
             (py "'" ++ PyVal.type_name v ++ py "' object has no attribute 'get'")),
   add_events w
     [Log INFO (py "Received webhook data: " ++ PyVal.str (unicode_printable env) v);
      Log ERROR (py "Error processing webhook: " ++
                 py "'" ++ PyVal.type_name v ++ py "' object has no attribute 'get'")]).
Proof.
  intros Hv.
  unfold webhook_handler, webhook_handler_body, try_except.
  unfold bind at 1. cbn [request_json ret].
  unfold bind at 1. cbn [logger_info emit].
  unfold bind at 1. rewrite (process_webhook_data_not_dict v Hv).
  cbn. unfold error_response. f_equal. world_eq.
Qed.

(** The handler on a body Flask could not parse. *)
Lemma webhook_handler_bad_body e w :
  webhook_handler env (BadBody e) w =
  (Return (error_response (exn_str e)),
   add_events w [Log ERROR (py "Error processing webhook: " ++ exn_str e)]).
Proof. reflexivity. Qed.

(** What one request puts on the wire when its per-event alert goes out. *)
Lemma webhook_handler_delivered d w m w2 :
  per_event_alert env d w = (Return (true, m), w2) ->
  fst (webhook_handler env (JsonBody (PyDict d)) w) = Return success_response /\
  sent_subjects (events_since w (snd (webhook_handler env (JsonBody (PyDict d)) w))) =
    alert_subject env (webhook_count w + 1)
      (PyVal.dict_get d (py "event_type") (PyStr (py "Unknown"))) ::
    (if (MAX_WEBHOOKS <=? webhook_count w + 1)%Z then [final_subject] else []) /\
  sent_bodies (events_since w (snd (webhook_handler env (JsonBody (PyDict d)) w))) =
    alert_body env (processed d) ::
    (if (MAX_WEBHOOKS <=? webhook_count w + 1)%Z then [final_body] else []).
Proof.
  intros H. rewrite webhook_handler_dict, H.
  unfold per_event_alert in H.
  apply send_email_alert_sent in H as (evs & -> & Hs & Hb & _ & _).
  destruct (MAX_WEBHOOKS <=? webhook_count w + 1)%Z.
  - destruct (completion_alert_returns env (add_events (counted env (PyDict d) w) evs))
      as (ok & m2 & w3 & Hc).
    rewrite Hc. cbn [fst snd].
    apply send_email_alert_sent in Hc as (evs2 & -> & Hs2 & Hb2 & _ & _).
    split; [reflexivity|].
    rewrite (events_since_trace w _
               (Log INFO (py "Received webhook data: " ++
                          PyVal.str (unicode_printable env) (PyDict d)) ::
                evs ++ evs2 ++
                [Log INFO (py "Maximum number of webhooks processed. Stopping.")])).
    + cbn [sent_subjects sent_bodies].
      autorewrite with trace_db. rewrite Hs, Hs2, Hb, Hb2. split; reflexivity.
    + cbn. repeat rewrite <- app_assoc. reflexivity.
  - cbn [fst snd]. split; [reflexivity|].
    rewrite (events_since_trace w _
               (Log INFO (py "Received webhook data: " ++
                          PyVal.str (unicode_printable env) (PyDict d)) :: evs)).
    + cbn [sent_subjects sent_bodies]. rewrite Hs, Hb. split; reflexivity.
    + cbn. repeat rewrite <- app_assoc. reflexivity.
Qed.

End HandlerFacts.

(* ================================================================== *)
(** ** What the handler passes to the mailer can always be encoded *)

Lemma encodable_app s t : encodable (s ++ t) = encodable s && encodable t.
Proof. apply forallb_app. Qed.

Lemma encodable_py s : encodable (py s) = true.
Proof.
  unfold py, encodable. induction s as [|a s IH]; [reflexivity|].
  cbn [list_ascii_of_string map forallb]. rewrite IH, andb_true_r.
  destruct a as [[] [] [] [] [] [] [] []]; reflexivity.
Qed.

Lemma small_not_surrogate c : (c < 55296)%N -> negb (is_surrogate c) = true.
Proof.
  intros H. unfold is_surrogate.
  destruct (N.leb_spec 55296 c) as [Hle|_]; [lia | reflexivity].
Qed.

Lemma encodable_hex width n : encodable (hex width n) = true.
Proof.
  revert n; induction width as [|width IH]; intros n; [reflexivity|].
  cbn [hex]. rewrite encodable_app, IH. cbn [encodable forallb andb].
  rewrite andb_true_r. apply small_not_surrogate.
  pose proof (N.mod_lt n 16 ltac:(discriminate)) as Hlt.
  unfold hex_digit. destruct (n mod 16 <? 10)%N; lia.
Qed.

Lemma encodable_cons c s :
  encodable (c :: s) = negb (is_surrogate c) && encodable s.
Proof. reflexivity. Qed.

Lemma encodable_join sep parts :
  encodable sep = true ->
  Forall (fun p => encodable p = true) parts ->
  encodable (join sep parts) = true.
Proof.
  intros Hsep H. induction H as [|p parts Hp Hps IH]; [reflexivity|].
  destruct parts as [|q parts]; [exact Hp|].
  change (join sep (p :: q :: parts)) with (p ++ sep ++ join sep (q :: parts)).
  rewrite !encodable_app, Hp, Hsep, IH. reflexivity.
Qed.

Section Encodable.
Variable upr : N -> bool.

Lemma isprintable_not_surrogate c :
  isprintable upr c = true -> negb (is_surrogate c) = true.
Proof.
  unfold isprintable, is_ascii.
  destruct (N.ltb_spec c 128) as [Hlt|_].
  - intros _. apply small_not_surrogate. lia.
  - destruct (is_surrogate c); [discriminate | reflexivity].
Qed.

Lemma encodable_escape_hex c : encodable (escape_hex c) = true.
Proof.
  unfold escape_hex.
  destruct (c <? 256)%N; [|destruct (c <? 65536)%N];
    rewrite encodable_cons, encodable_app, encodable_py, encodable_hex;
    reflexivity.
Qed.

Lemma encodable_repr_char quote c :
  negb (is_surrogate quote) = true ->
  encodable (repr_char upr quote c) = true.
Proof.
  intros Hq. unfold repr_char.
  destruct ((c =? quote)%N || (c =? BACKSLASH)%N) eqn:Hc.
  - apply orb_true_iff in Hc as [Hc|Hc]; apply N.eqb_eq in Hc; subst c;
      cbn [encodable forallb]; [rewrite Hq|]; reflexivity.
  - destruct (c =? 9)%N; [reflexivity|].
    destruct (c =? 10)%N; [reflexivity|].
    destruct (c =? 13)%N; [reflexivity|].
    destruct (isprintable upr c) eqn:Hp.
    + cbn [encodable forallb].
      rewrite (isprintable_not_surrogate c Hp). reflexivity.
    + apply encodable_escape_hex.
Qed.

Lemma encodable_str_repr s : encodable (PyStr.repr upr s) = true.
Proof.
  unfold PyStr.repr.
  assert (Hq : negb (is_surrogate
                       (if contains SQUOTE s && negb (contains DQUOTE s)
                        then DQUOTE else SQUOTE)) = true)
    by (destruct (contains SQUOTE s && negb (contains DQUOTE s)); reflexivity).
  revert Hq.
  generalize (if contains SQUOTE s && negb (contains DQUOTE s)
              then DQUOTE else SQUOTE).
  intros quote Hq. cbv zeta.
  rewrite encodable_cons, encodable_app, Hq. cbn [encodable forallb andb].
  rewrite Hq, !andb_true_r.
  induction s as [|c s IH]; [reflexivity|].
  cbn [flat_map]. change (forallb _ ?l) with (encodable l).
  rewrite encodable_app, (encodable_repr_char quote c Hq). exact IH.
Qed.

(** [repr] escapes every surrogate it meets. *)
Lemma encodable_repr v : encodable (PyVal.repr upr v) = true.
Proof.
  induction v as [| b | z | r | s | l IH | d IH] using pyval_nested_ind.
  - reflexivity.
  - destruct b; reflexivity.
  - apply encodable_py.
  - apply encodable_py.
  - apply encodable_str_repr.
  - cbn [PyVal.repr]. rewrite !encodable_app, !encodable_py, andb_true_r.
    cbn [andb]. apply encodable_join; [apply encodable_py|].
    induction IH as [|x l Hx _ IHl]; cbn [map]; constructor; assumption.
  - cbn [PyVal.repr]. rewrite !encodable_app, !encodable_py, andb_true_r.
    cbn [andb]. apply encodable_join; [apply encodable_py|].
    induction IH as [|[k x] d Hx _ IHd]; constructor; [|exact IHd].
    cbn [snd] in Hx.
    rewrite !encodable_app, encodable_str_repr, encodable_py, Hx. reflexivity.
Qed.
End Encodable.

Lemma first_surrogate_encodable s pos :
  encodable s = true -> Lib.first_surrogate pos s = None.
Proof.
  revert pos; induction s as [|c s IH]; intros pos; [reflexivity|].
  rewrite encodable_cons. intros H. apply andb_true_iff in H as [Hc Hs].
  cbn [Lib.first_surrogate]. destruct (is_surrogate c); [discriminate|].
  apply IH, Hs.
Qed.

Lemma MIMEText_encodable body :
  encodable body = true -> exists part, Lib.MIMEText body = inr part.
Proof.
  intros H. unfold Lib.MIMEText.
  destruct (forallb is_ascii body); [eauto|].
  rewrite (first_surrogate_encodable body 0%N H). eauto.
Qed.

(** X2.  Inside [webhook_handler] the per-event call of [send_email_alert]
    always returns a pair: the body is a [repr], which holds no surrogate. *)
Lemma per_event_alert_returns env d w :
  exists ok message w2, per_event_alert env d w = (Return (ok, message), w2).
Proof.
  unfold per_event_alert.
  destruct (MIMEText_encodable (alert_body env (processed d))) as [part Hm].
  - unfold alert_body. rewrite !encodable_app, encodable_py.
    change (PyVal.str (unicode_printable env) (processed d))
      with (PyVal.repr (unicode_printable env) (processed d)).
    rewrite encodable_repr. reflexivity.
  - destruct (send_email_alert_returns env
                (alert_subject env (webhook_count w + 1)
                   (PyVal.dict_get d (py "event_type") (PyStr (py "Unknown"))))
                _ part (counted env (PyDict d) w) Hm)
      as (ok & m & w' & H & _).
    eauto.
Qed.

(* ================================================================== *)
(** ** The payload normalizer *)


(* ================================================================== *)
(** ** The mailer *)

(** C6.  [send_email_alert] builds its message before the [try]: on a body
    holding a surrogate code point (here the one-character text U+D800)
    [MIMEText] raises [UnicodeEncodeError], no [except] clause is in reach,
    and the exception leaves the function; no SMTP session is opened. *)
Theorem send_email_alert_raises_on_surrogate_body (env : Env) (subject : pystr) (w : World) :
  send_email_alert env subject [55296%N] w =
  (Raise (Exc (mkExn UnicodeEncodeError
                 (py "'utf-8' codec can't encode character '\ud800' in position 0: surrogates not allowed"))),
   w).
Proof. rewrite send_email_alert_eq. reflexivity. Qed.

(* ================================================================== *)
(** ** The webhook endpoint *)



(** C10.  For a body that is valid JSON but not an object, [data.get]
    raises [AttributeError]; the handler answers status 500 with its text,
    the counter keeps its value and no SMTP session is opened. *)
Theorem non_object_body_gives_500 (env : Env) (v : pyval) (w : World) :
  PyVal.is_dict v = false ->
  process_webhook_data v =
    inl (mkExn AttributeError
           (py "'" ++ PyVal.type_name v ++ py "' object has no attribute 'get'")) /\
  fst (webhook_handler env (JsonBody v) w) =
    Return (Lib.jsonify (py "error")
              (py "'" ++ PyVal.type_name v ++ py "' object has no attribute 'get'"),
            500) /\
  webhook_count (snd (webhook_handler env (JsonBody v) w)) = webhook_count w /\
  sent_subjects (events_since w (snd (webhook_handler env (JsonBody v) w))) = [].
Proof.
  intros Hv. split; [apply process_webhook_data_not_dict; exact Hv|].
  rewrite (webhook_handler_not_dict env v w Hv). cbn [fst snd].
  split; [reflexivity|]. split; [reflexivity|].
  rewrite events_since_add. reflexivity.
Qed.

(** C8.  The counter is 0 at module start; a request whose body is a JSON
    object adds exactly 1 to it, whatever the SMTP server answers; a request
    that does not parse or does not normalize leaves it alone, and so do
    [send_email_alert], [test_email_login] and [create_webhook]. *)
Theorem webhook_count_discipline (env : Env) :
  webhook_count initial_world = 0 /\
  (forall d w,
      webhook_count (snd (webhook_handler env (JsonBody (PyDict d)) w)) =
      webhook_count w + 1) /\
  (forall v w,
      PyVal.is_dict v = false ->
      webhook_count (snd (webhook_handler env (JsonBody v) w)) = webhook_count w) /\
  (forall e w,
      webhook_count (snd (webhook_handler env (BadBody e) w)) = webhook_count w) /\
  (forall subject body w,
      webhook_count (snd (send_email_alert env subject body w)) = webhook_count w) /\
  (forall w, webhook_count (snd (test_email_login env w)) = webhook_count w) /\
  (forall w, webhook_count (snd (create_webhook env w)) = webhook_count w).
Proof.
  split; [reflexivity|].
  split; [apply webhook_handler_dict_count|].
  split; [intros v w Hv; rewrite (webhook_handler_not_dict env v w Hv); reflexivity|].
  split; [reflexivity|].
  split; [apply send_email_alert_count|].
  split; [|apply create_webhook_count].
  intros w. rewrite test_email_login_eq.
  destruct (smtp_login_session env (trace w)); reflexivity.
Qed.



(** C4.  From module start with every request carrying
    [{"event_type": "ping"}]: the first request hands the SMTP session one
    message, with subject "Webhook Alert 1/3: ping", whatever the session
    then does with it; the third request, when its per-event alert goes
    out, hands over "Webhook Alert 3/3: ping" and then the fixed
    "Webhook Processing Complete" message. *)
Theorem ping_alert_subjects (env : Env) :
  sent_subjects
    (trace (snd (webhook_handler env Examples.ping_request initial_world))) =
    [py "Webhook Alert 1/3: ping"] /\
  forall (m : pystr) (w3 : World),
  per_event_alert env Examples.ping
    (serve env [Examples.ping_request; Examples.ping_request] initial_world) =
    (Return (true, m), w3) ->
  sent_subjects
    (events_since
       (serve env [Examples.ping_request; Examples.ping_request] initial_world)
       (snd (webhook_handler env Examples.ping_request
               (serve env [Examples.ping_request; Examples.ping_request] initial_world)))) =
    [py "Webhook Alert 3/3: ping"; py "Webhook Processing Complete"] /\
  sent_bodies
    (events_since
       (serve env [Examples.ping_request; Examples.ping_request] initial_world)
       (snd (webhook_handler env Examples.ping_request
               (serve env [Examples.ping_request; Examples.ping_request] initial_world)))) =
    [py "Processed webhook data:" ++ NL ++
     py "{'event_type': 'ping', 'timestamp': None, 'details': {}}";
     py "All 3 webhooks have been processed. The system will now stop accepting new webhooks."].
Proof.
  split.
  - unfold Examples.ping_request. rewrite webhook_handler_dict.
    unfold per_event_alert. rewrite send_email_alert_eq.
    assert (Hm : Lib.MIMEText (alert_body env (processed Examples.ping)) =
                 inr (mkPart us_ascii (alert_body env (processed Examples.ping))))
      by (vm_compute; reflexivity).
    rewrite Hm. cbv zeta.
    destruct (smtp_send_session env _ _); reflexivity.
  - intros m w3 H.
    assert (Hc : webhook_count
                   (serve env [Examples.ping_request; Examples.ping_request]
                      initial_world) = 2).
    { cbn [serve]. unfold Examples.ping_request.
      rewrite !webhook_handler_dict_count. reflexivity. }
    destruct (webhook_handler_delivered env _ _ _ _ H) as (_ & Hs & Hb).
    fold Examples.ping_request in Hs, Hb.
    rewrite Hs, Hb, Hc. split; reflexivity.
Qed.

(* ================================================================== *)
(** ** Start-up *)

(** C9.  When [test_email_login] answers [False] the start-up block ends
    the process with status 1 and posts nothing ([create_webhook] is never
    reached); when the login test answers [True] and [create_webhook]
    raises, the process ends with status 1 as well. *)
Theorem startup_exits_nonzero (env : Env) (w : World) :
  (forall w1,
      test_email_login env w = (Return false, w1) ->
      exit_status (main env w) = 1 /\
      http_posts (events_since w (snd (main env w))) = []) /\
  (forall w1 s w2,
      test_email_login env w = (Return true, w1) ->
      create_webhook env w1 = (Raise s, w2) ->
      exit_status (main env w) = 1).
Proof.
  split.
  - intros w1 H. rewrite (main_login_failed env w w1 H).
    split; [reflexivity|].
    rewrite test_email_login_eq in H.
    destruct (smtp_login_session env (trace w)) as [e|]; [|discriminate].
    injection H as <-. cbn [snd].
    rewrite add_events_app, events_since_add. reflexivity.
  - intros w1 [e|c] w2 H1 H2.
    + rewrite (main_provisioning_failed env w w1 e w2 H1 H2). reflexivity.
    + exfalso. exact (create_webhook_no_exit env w1 c w2 H2).
Qed.

(* ================================================================== *)
(** ** The theorems at work on concrete runs *)




Lemma non_object_body_gives_500_witness :
  PyVal.is_dict (PyList [PyInt 1; PyInt 2]) = false /\
  process_webhook_data (PyList [PyInt 1; PyInt 2]) =
    inl (mkExn AttributeError (py "'list' object has no attribute 'get'")) /\
  fst (webhook_handler Examples.working (JsonBody (PyList [PyInt 1; PyInt 2]))
         initial_world) =
    Return (Lib.jsonify (py "error") (py "'list' object has no attribute 'get'"), 500) /\
  webhook_count
    (snd (webhook_handler Examples.working (JsonBody (PyList [PyInt 1; PyInt 2]))
            initial_world)) = webhook_count initial_world /\
  sent_subjects
    (events_since initial_world
       (snd (webhook_handler Examples.working (JsonBody (PyList [PyInt 1; PyInt 2]))
               initial_world))) = [].
Proof.
  split; [reflexivity|].
  exact (non_object_body_gives_500 Examples.working (PyList [PyInt 1; PyInt 2])
           initial_world eq_refl).
Defined.


Lemma ping_alert_subjects_witness :
  per_event_alert Examples.working Examples.ping
    (serve Examples.working [Examples.ping_request; Examples.ping_request]
       initial_world) =
    (Return (true, py "Email sent successfully"),
     snd (per_event_alert Examples.working Examples.ping
            (serve Examples.working [Examples.ping_request; Examples.ping_request]
               initial_world))) /\
  sent_subjects
    (trace (snd (webhook_handler Examples.working Examples.ping_request
                   initial_world))) =
    [py "Webhook Alert 1/3: ping"] /\
  sent_subjects
    (events_since
       (serve Examples.working [Examples.ping_request; Examples.ping_request]
          initial_world)
       (snd (webhook_handler Examples.working Examples.ping_request
               (serve Examples.working [Examples.ping_request; Examples.ping_request]
                  initial_world)))) =
    [py "Webhook Alert 3/3: ping"; py "Webhook Processing Complete"].
Proof.
  assert (H : per_event_alert Examples.working Examples.ping
                (serve Examples.working [Examples.ping_request; Examples.ping_request]
                   initial_world) =
              (Return (true, py "Email sent successfully"),
               snd (per_event_alert Examples.working Examples.ping
                      (serve Examples.working
                         [Examples.ping_request; Examples.ping_request]
                         initial_world))))
    by (vm_compute; reflexivity).
  split; [exact H|].
  destruct (ping_alert_subjects Examples.working) as [H1 H3].
  split; [exact H1 | exact (proj1 (H3 _ _ H))].
Defined.

Lemma startup_exits_nonzero_witness :
  (test_email_login Examples.smtp_down initial_world =
     (Return false, snd (test_email_login Examples.smtp_down initial_world)) /\
   exit_status (main Examples.smtp_down initial_world) = 1 /\
   http_posts
     (events_since initial_world (snd (main Examples.smtp_down initial_world))) = []) /\
  (test_email_login Examples.provisioner_down initial_world =
     (Return true, snd (test_email_login Examples.provisioner_down initial_world)) /\
   create_webhook Examples.provisioner_down
     (snd (test_email_login Examples.provisioner_down initial_world)) =
     (Raise (Exc (mkExn RequestException (py "503 Server Error: Service Unavailable"))),
      snd (create_webhook Examples.provisioner_down
             (snd (test_email_login Examples.provisioner_down initial_world)))) /\
   exit_status (main Examples.provisioner_down initial_world) = 1).
Proof.
  split.
  - split; [reflexivity|].
    exact (proj1 (startup_exits_nonzero Examples.smtp_down initial_world) _ eq_refl).
  - split; [reflexivity|]. split; [reflexivity|].
    exact (proj2 (startup_exits_nonzero Examples.provisioner_down initial_world)
             _ _ _ eq_refl eq_refl).
Defined.

(* ================================================================== *)
(** ** The mailer on bodies it can encode *)

(** X1.  On a body without surrogate code points [send_email_alert] raises
    nothing: the message is built, one SMTP session is opened, and the
    session's result alone decides between [(True, "Email sent
    successfully")] and [(False, text of the failure)]. *)
Theorem send_email_alert_returns_on_encodable_body (env : Env)
    (subject body : pystr) (w : World) :
  encodable body = true ->
  exists part,
    Lib.MIMEText body = inr part /\
    send_email_alert env subject body w =
    match smtp_send_session env (trace w)
            (mkMessage (SENDER_EMAIL env) (SENDER_EMAIL env) subject [part]) with
    | None =>
        (Return (true, py "Email sent successfully"),
         add_events w
           [SmtpSend (mkMessage (SENDER_EMAIL env) (SENDER_EMAIL env) subject [part]) None;
            Log INFO (py "Email alert sent successfully")])
    | Some e =>
        (Return (false, send_failure_message e),
         add_events w
           [SmtpSend (mkMessage (SENDER_EMAIL env) (SENDER_EMAIL env) subject [part]) (Some e);
            Log ERROR (send_failure_message e)])
    end.
Proof.
  intros H. destruct (MIMEText_encodable body H) as [part Hm].
  exists part. split; [exact Hm|].
  rewrite send_email_alert_eq, Hm. reflexivity.
Qed.

Lemma send_email_alert_returns_on_encodable_body_witness :
  encodable (py "disk full") = true /\
  exists part,
    Lib.MIMEText (py "disk full") = inr part /\
    send_email_alert Examples.smtp_down (py "Alert") (py "disk full") initial_world =
    match smtp_send_session Examples.smtp_down (trace initial_world)
            (mkMessage (SENDER_EMAIL Examples.smtp_down)
               (SENDER_EMAIL Examples.smtp_down) (py "Alert") [part]) with
    | None =>
        (Return (true, py "Email sent successfully"),
         add_events initial_world
           [SmtpSend (mkMessage (SENDER_EMAIL Examples.smtp_down)
                        (SENDER_EMAIL Examples.smtp_down) (py "Alert") [part]) None;
            Log INFO (py "Email alert sent successfully")])
    | Some e =>
        (Return (false, send_failure_message e),
         add_events initial_world
           [SmtpSend (mkMessage (SENDER_EMAIL Examples.smtp_down)
                        (SENDER_EMAIL Examples.smtp_down) (py "Alert") [part]) (Some e);
            Log ERROR (send_failure_message e)])
    end.
Proof.
  split; [reflexivity|].
  exact (send_email_alert_returns_on_encodable_body Examples.smtp_down
           (py "Alert") (py "disk full") initial_world eq_refl).
Defined.

(* ================================================================== *)
(** ** More on traces *)

Lemma sent_messages_app tr tr' :
  sent_messages (tr ++ tr') = sent_messages tr ++ sent_messages tr'.
Proof.
  induction tr as [|ev tr IH]; simpl; [reflexivity|].
  destruct ev; simpl; rewrite IH; reflexivity.
Qed.

Lemma listener_runs_app tr tr' :
  listener_runs (tr ++ tr') = listener_runs tr ++ listener_runs tr'.
Proof.
  induction tr as [|ev tr IH]; simpl; [reflexivity|].
  destruct ev; simpl; rewrite IH; reflexivity.
Qed.

Lemma events_since_add_add w evs evs' :
  events_since w (add_events (add_events w evs) evs') = evs ++ evs'.
Proof. rewrite add_events_app. apply events_since_add. Qed.

(* ================================================================== *)
(** ** The login probe *)

(** X3.  [test_email_login] never raises: it opens one login session and
    answers [True] exactly when that session went through without an
    exception; it logs one record, sends no mail, posts nothing and leaves
    the counter and the stored URL alone. *)
Theorem test_email_login_never_raises (env : Env) (w : World) :
  exists ok w',
    test_email_login env w = (Return ok, w') /\
    (ok = true <-> smtp_login_session env (trace w) = None) /\
    login_sessions (events_since w w') = [smtp_login_session env (trace w)] /\
    List.length (logged (events_since w w')) = 1%nat /\
    (ok = true <-> logged_errors (events_since w w') = []) /\
    sent_subjects (events_since w w') = [] /\
    http_posts (events_since w w') = [] /\
    webhook_count w' = webhook_count w /\
    webhook_url w' = webhook_url w.
Proof.
  rewrite test_email_login_eq.
  destruct (smtp_login_session env (trace w)) as [e|].
  - exists false. eexists. split; [reflexivity|].
    rewrite events_since_add. cbn.
    repeat split; try reflexivity; discriminate.
  - exists true. eexists. split; [reflexivity|].
    rewrite events_since_add. cbn.
    repeat split; reflexivity.
Qed.

(** X4.  What [test_email_login] logs follows the order of its [except]
    clauses: an authentication error gets the fixed credentials hint (its
    own text is not logged, although the class is an [SMTPException] too),
    any other [SMTPException] and any other exception get their text after
    a prefix of their own. *)
Theorem test_email_login_log_by_class (env : Env) (w : World) (e : exn) :
  smtp_login_session env (trace w) = Some e ->
  fst (test_email_login env w) = Return false /\
  logged (events_since w (snd (test_email_login env w))) =
    [(ERROR,
      match exn_class e with
      | SMTPAuthenticationError =>
          py "Failed to authenticate with the SMTP server. Please check your email and password."
      | SMTPException =>
          py "An error occurred while testing email login: " ++ exn_str e
      | _ =>
          py "An unexpected error occurred during email login test: " ++ exn_str e
      end)].
Proof.
  intros H. rewrite test_email_login_eq, H. cbn [fst snd].
  rewrite events_since_add. split; [reflexivity|].
  destruct e as [[] text]; reflexivity.
Qed.

Lemma test_email_login_log_by_class_witness :
  smtp_login_session Examples.smtp_down (trace initial_world) =
    Some (mkExn SMTPAuthenticationError (py "(535, b'Bad credentials')")) /\
  fst (test_email_login Examples.smtp_down initial_world) = Return false /\
  logged (events_since initial_world
            (snd (test_email_login Examples.smtp_down initial_world))) =
    [(ERROR,
      py "Failed to authenticate with the SMTP server. Please check your email and password.")].
Proof.
  split; [reflexivity|].
  exact (test_email_login_log_by_class Examples.smtp_down initial_world _ eq_refl).
Defined.

(* ================================================================== *)
(** ** The webhook provisioner *)

(** X5.  When webhook.site answers with a JSON object that has a ["url"]
    field, [create_webhook] returns that field's value unchanged, after one
    POST to the fixed address; it logs nothing and touches neither the
    counter nor the stored URL. *)
Theorem create_webhook_returns_url (env : Env) (w : World)
    (d : list (pystr * pyval)) (url : pyval) :
  requests_post env (trace w) WEBHOOK_SITE_API = inr (PyDict d) ->
  PyVal.lookup d (py "url") = Some url ->
  create_webhook env w =
    (Return url,
     add_events w [HttpPost (py "https://webhook.site/token") (inr (PyDict d))]).
Proof.
  intros Hp Hu. rewrite create_webhook_eq, Hp. cbv zeta.
  cbn [Lib.getitem]. rewrite Hu. reflexivity.
Qed.

Lemma create_webhook_returns_url_witness :
  requests_post Examples.working (trace initial_world) WEBHOOK_SITE_API =
    inr (PyDict [(py "url", PyStr (py "https://webhook.site/0000"))]) /\
  PyVal.lookup [(py "url", PyStr (py "https://webhook.site/0000"))] (py "url") =
    Some (PyStr (py "https://webhook.site/0000")) /\
  create_webhook Examples.working initial_world =
    (Return (PyStr (py "https://webhook.site/0000")),
     add_events initial_world
       [HttpPost (py "https://webhook.site/token")
          (inr (PyDict [(py "url", PyStr (py "https://webhook.site/0000"))]))]).
Proof.
  split; [reflexivity|]. split; [reflexivity|].
  exact (create_webhook_returns_url Examples.working initial_world _ _
           eq_refl eq_refl).
Defined.

(** X6.  When the answer parses but [data['url']] fails (an object without
    the key gives [KeyError], any other JSON value [TypeError]), the
    exception leaves [create_webhook] as it is and nothing is logged: the
    function's [except] clause names [RequestException] only. *)
Theorem create_webhook_lookup_failure_unlogged (env : Env) (w : World)
    (data : pyval) (e : exn) :
  requests_post env (trace w) WEBHOOK_SITE_API = inr data ->
  Lib.getitem (unicode_printable env) data (py "url") = inl e ->
  create_webhook env w =
    (Raise (Exc e), add_events w [HttpPost WEBHOOK_SITE_API (inr data)]) /\
  (exn_class e = KeyError \/ exn_class e = TypeError) /\
  (forall d, data = PyDict d -> e = mkExn KeyError (py "'url'")).
Proof.
  intros Hp Hg. rewrite create_webhook_eq, Hp. cbv zeta. rewrite Hg.
  assert (Hc : exn_class e = KeyError \/ exn_class e = TypeError).
  { destruct data; cbn in Hg;
      try (injection Hg as <-; right; reflexivity).
    destruct (PyVal.lookup items (py "url")); [discriminate|].
    injection Hg as <-; left; reflexivity. }
  split; [|split; [exact Hc|]].
  - unfold is_RequestException. destruct Hc as [-> | ->]; reflexivity.
  - intros d ->. cbn in Hg.
    destruct (PyVal.lookup d (py "url")); [discriminate|].
    injection Hg as <-. reflexivity.
Qed.

Lemma create_webhook_lookup_failure_unlogged_witness :
  requests_post MoreExamples.no_url (trace initial_world) WEBHOOK_SITE_API =
    inr (PyDict [(py "uuid", PyStr (py "0000"))]) /\
  Lib.getitem (unicode_printable MoreExamples.no_url)
    (PyDict [(py "uuid", PyStr (py "0000"))]) (py "url") =
    inl (mkExn KeyError (py "'url'")) /\
  create_webhook MoreExamples.no_url initial_world =
    (Raise (Exc (mkExn KeyError (py "'url'"))),
     add_events initial_world
       [HttpPost WEBHOOK_SITE_API (inr (PyDict [(py "uuid", PyStr (py "0000"))]))]).
Proof.
  split; [reflexivity|]. split; [reflexivity|].
  exact (proj1 (create_webhook_lookup_failure_unlogged MoreExamples.no_url
                  initial_world _ _ eq_refl eq_refl)).
Defined.

(** X7.  An exception raised by the POST itself leaves [create_webhook]
    unchanged (the very same exception); it is logged first, once, at level
    ERROR, exactly when it is a [RequestException]. *)
Theorem create_webhook_reraises (env : Env) (w : World) (e : exn) :
  requests_post env (trace w) WEBHOOK_SITE_API = inl e ->
  create_webhook env w =
    (Raise (Exc e),
     add_events w
       (HttpPost WEBHOOK_SITE_API (inl e) ::
        (if is_RequestException e
         then [Log ERROR (py "Failed to create webhook: " ++ exn_str e)]
         else []))).
Proof.
  intros Hp. rewrite create_webhook_eq, Hp. cbv zeta.
  destruct (is_RequestException e).
  - rewrite add_events_app. reflexivity.
  - reflexivity.
Qed.

Lemma create_webhook_reraises_witness :
  requests_post Examples.provisioner_down (trace initial_world) WEBHOOK_SITE_API =
    inl (mkExn RequestException (py "503 Server Error: Service Unavailable")) /\
  create_webhook Examples.provisioner_down initial_world =
    (Raise (Exc (mkExn RequestException (py "503 Server Error: Service Unavailable"))),
     add_events initial_world
       [HttpPost WEBHOOK_SITE_API
          (inl (mkExn RequestException (py "503 Server Error: Service Unavailable")));
        Log ERROR (py "Failed to create webhook: 503 Server Error: Service Unavailable")]).
Proof.
  split; [reflexivity|].
  exact (create_webhook_reraises Examples.provisioner_down initial_world _ eq_refl).
Defined.

(* ================================================================== *)
(** ** The start-up block, to its end *)

Lemma print_eq env text w :
  print env text w =
  match print_failure env text with
  | Some e => (Raise (Exc e), w)
  | None => (Return tt, add_events w [Print text])
  end.
Proof.
  unfold print, print_failure.
  destruct (Lib.first_unencodable _ 0%N text) as [[[pos c] run]|]; reflexivity.
Qed.




(** The start-up block when the URL cannot be printed: the exception of
    [print] is caught by the block's own handler. *)
Lemma main_print_failed env w w1 url w2 e :
  test_email_login env w = (Return true, w1) ->
  create_webhook env w1 = (Return url, w2) ->
  print_failure env (py "Webhook URL: " ++ PyVal.str (unicode_printable env) url) = Some e ->
  main env w =
  (Raise (SystemExit 1),
   add_events (with_url w2 url)
     [Log INFO (py "Created webhook: " ++ PyVal.str (unicode_printable env) url);
      Log ERROR (py "Failed to start the application: " ++ exn_str e)]).
Proof.
  intros H1 H2 Hp. unfold main, try_except.
  unfold bind at 1. rewrite H1. cbn [negb].
  unfold bind at 1. cbn [ret].
  unfold bind at 1. rewrite H2.
  unfold bind at 1. cbn [set_webhook_url].
  unfold bind at 1. cbn [logger_info emit].
  unfold bind at 1. rewrite print_eq, Hp.
  cbn. unfold add_events, with_url. cbn [trace webhook_count webhook_url].
  f_equal. f_equal. rewrite <- app_assoc. reflexivity.
Qed.

Lemma test_email_login_url env w :
  webhook_url (snd (test_email_login env w)) = webhook_url w.
Proof.
  rewrite test_email_login_eq.
  destruct (smtp_login_session env (trace w)); reflexivity.
Qed.

Lemma create_webhook_trace env w :
  exists evs,
    snd (create_webhook env w) = add_events w evs /\
    listener_runs evs = [] /\
    sent_subjects evs = [] /\
    http_posts evs = [WEBHOOK_SITE_API].
Proof.
  rewrite create_webhook_eq. cbv zeta.
  destruct (requests_post env (trace w) WEBHOOK_SITE_API) as [e|data].
  - destruct (is_RequestException e); cbn [snd];
      [rewrite add_events_app|]; eexists; (split; [reflexivity|]);
      repeat split; reflexivity.
  - destruct (Lib.getitem _ data _) as [e|url].
    + destruct (is_RequestException e); cbn [snd];
        [rewrite add_events_app|]; eexists; (split; [reflexivity|]);
        repeat split; reflexivity.
    + eexists; split; [reflexivity|]. repeat split; reflexivity.
Qed.




(** X17.  When [create_webhook] returns a URL that the standard output
    cannot encode (a lone surrogate under a UTF-8 stream), [print] raises
    inside the block's [try]: the URL has been stored and logged, nothing
    is printed, the listener is never started, the failure is logged as
    "Failed to start the application: ..." and the exit status is 1. *)
Theorem main_stops_when_url_cannot_be_printed (env : Env) (w w1 : World)
    (url : pyval) (w2 : World) (e : exn) :
  test_email_login env w = (Return true, w1) ->
  create_webhook env w1 = (Return url, w2) ->
  print_failure env
    (py "Webhook URL: " ++ PyVal.str (unicode_printable env) url) = Some e ->
  exn_class e = UnicodeEncodeError /\
  webhook_url (snd (main env w)) = Some url /\
  events_since w2 (snd (main env w)) =
    [Log INFO (py "Created webhook: " ++ PyVal.str (unicode_printable env) url);
     Log ERROR (py "Failed to start the application: " ++ exn_str e)] /\
  listener_runs (events_since w (snd (main env w))) = [] /\
  exit_status (main env w) = 1.
Proof.
  intros H1 H2 Hp. rewrite (main_print_failed env w w1 url w2 e H1 H2 Hp).
  cbn [snd]. split.
  - unfold print_failure in Hp.
    destruct (Lib.first_unencodable _ 0%N _) as [[[pos c] run]|];
      [|discriminate].
    injection Hp as <-. reflexivity.
  - split; [reflexivity|]. split.
    + apply events_since_trace. reflexivity.
    + split; [|reflexivity].
      destruct (create_webhook_trace env w1) as (evs & Hw & Hl & _).
      rewrite H2 in Hw. cbn [snd] in Hw. subst w2.
      rewrite test_email_login_eq in H1.
      destruct (smtp_login_session env (trace w)) as [e'|]; [discriminate|].
      injection H1 as <-.
      rewrite (events_since_trace w _
                 ([SmtpLogin None; Log INFO (py "Email login successful")] ++ evs ++
                  [Log INFO (py "Created webhook: " ++
                             PyVal.str (unicode_printable env) url);
                   Log ERROR (py "Failed to start the application: " ++ exn_str e)])).
      * rewrite !listener_runs_app, Hl. reflexivity.
      * unfold add_events, with_url. cbn [trace].
        repeat rewrite <- app_assoc. reflexivity.
Qed.

Lemma main_stops_when_url_cannot_be_printed_witness :
  test_email_login MoreExamples.surrogate_url initial_world =
    (Return true, snd (test_email_login MoreExamples.surrogate_url initial_world)) /\
  create_webhook MoreExamples.surrogate_url
    (snd (test_email_login MoreExamples.surrogate_url initial_world)) =
    (Return (PyStr [55296%N]),
     snd (create_webhook MoreExamples.surrogate_url
            (snd (test_email_login MoreExamples.surrogate_url initial_world)))) /\
  print_failure MoreExamples.surrogate_url
    (py "Webhook URL: " ++
     PyVal.str (unicode_printable MoreExamples.surrogate_url) (PyStr [55296%N])) =
    Some (mkExn UnicodeEncodeError
            (py "'utf-8' codec can't encode character '\ud800' in position 13: surrogates not allowed")) /\
  exit_status (main MoreExamples.surrogate_url initial_world) = 1 /\
  listener_runs
    (events_since initial_world
       (snd (main MoreExamples.surrogate_url initial_world))) = [] /\
  logged_errors (trace (snd (main MoreExamples.surrogate_url initial_world))) =
    [py "Failed to start the application: 'utf-8' codec can't encode character '\ud800' in position 13: surrogates not allowed"].
Proof.
  split; [reflexivity|]. split; [reflexivity|]. split; [reflexivity|].
  destruct (main_stops_when_url_cannot_be_printed MoreExamples.surrogate_url
              initial_world _ _ _ _ eq_refl eq_refl eq_refl)
    as (_ & _ & _ & Hl & Hx).
  split; [exact Hx|]. split; [exact Hl|]. reflexivity.
Defined.

(** X10.  The listener is never started, and [webhook_url] keeps its value,
    when the login test answers [False] or when [create_webhook] raises. *)
Theorem main_listens_only_when_provisioned (env : Env) (w : World) :
  (forall w1,
      test_email_login env w = (Return false, w1) ->
      listener_runs (events_since w (snd (main env w))) = [] /\
      webhook_url (snd (main env w)) = webhook_url w) /\
  (forall w1 s w2,
      test_email_login env w = (Return true, w1) ->
      create_webhook env w1 = (Raise s, w2) ->
      listener_runs (events_since w (snd (main env w))) = [] /\
      webhook_url (snd (main env w)) = webhook_url w).
Proof.
  split.
  - intros w1 H. rewrite (main_login_failed env w w1 H).
    rewrite test_email_login_eq in H.
    destruct (smtp_login_session env (trace w)) as [e|]; [|discriminate].
    injection H as <-. cbn [snd].
    rewrite events_since_add_add. split; reflexivity.
  - intros w1 [e|c] w2 H1 H2;
      [|exfalso; exact (create_webhook_no_exit env w1 c w2 H2)].
    rewrite (main_provisioning_failed env w w1 e w2 H1 H2). cbn [snd].
    destruct (create_webhook_trace env w1) as (evs & Hw & Hl & _).
    rewrite H2 in Hw. cbn [snd] in Hw. subst w2.
    rewrite test_email_login_eq in H1.
    destruct (smtp_login_session env (trace w)) as [e'|]; [discriminate|].
    injection H1 as <-.
    rewrite !add_events_app, events_since_add.
    cbn [app listener_runs]. rewrite listener_runs_app, Hl.
    split; reflexivity.
Qed.

Lemma main_listens_only_when_provisioned_witness :
  (test_email_login Examples.smtp_down initial_world =
     (Return false, snd (test_email_login Examples.smtp_down initial_world)) /\
   listener_runs
     (events_since initial_world (snd (main Examples.smtp_down initial_world))) = [] /\
   webhook_url (snd (main Examples.smtp_down initial_world)) = None) /\
  (test_email_login MoreExamples.no_url initial_world =
     (Return true, snd (test_email_login MoreExamples.no_url initial_world)) /\
   create_webhook MoreExamples.no_url
     (snd (test_email_login MoreExamples.no_url initial_world)) =
     (Raise (Exc (mkExn KeyError (py "'url'"))),
      snd (create_webhook MoreExamples.no_url
             (snd (test_email_login MoreExamples.no_url initial_world)))) /\
   listener_runs
     (events_since initial_world (snd (main MoreExamples.no_url initial_world))) = [] /\
   webhook_url (snd (main MoreExamples.no_url initial_world)) = None).
Proof.
  split.
  - split; [reflexivity|].
    exact (proj1 (main_listens_only_when_provisioned Examples.smtp_down
                    initial_world) _ eq_refl).
  - split; [reflexivity|]. split; [reflexivity|].
    exact (proj2 (main_listens_only_when_provisioned MoreExamples.no_url
                    initial_world) _ _ _ eq_refl eq_refl).
Defined.

(* ================================================================== *)
(** ** The webhook endpoint, request by request *)

Lemma alert_body_encodable env d :
  exists part, Lib.MIMEText (alert_body env (processed d)) = inr part.
Proof.
  apply MIMEText_encodable.
  unfold alert_body. rewrite !encodable_app, encodable_py.
  change (PyVal.str (unicode_printable env) (processed d))
    with (PyVal.repr (unicode_printable env) (processed d)).
  rewrite encodable_repr. reflexivity.
Qed.

(** The per-event call, decided by the SMTP session alone. *)
Lemma per_event_alert_cases env d w :
  exists part,
    per_event_alert env d w =
    match smtp_send_session env (trace (counted env (PyDict d) w))
            (mkMessage (SENDER_EMAIL env) (SENDER_EMAIL env)
               (alert_subject env (webhook_count w + 1)
                  (PyVal.dict_get d (py "event_type") (PyStr (py "Unknown"))))
               [part]) with
    | None =>
        (Return (true, py "Email sent successfully"),
         add_events (counted env (PyDict d) w)
           [SmtpSend (mkMessage (SENDER_EMAIL env) (SENDER_EMAIL env)
                        (alert_subject env (webhook_count w + 1)
                           (PyVal.dict_get d (py "event_type") (PyStr (py "Unknown"))))
                        [part]) None;
            Log INFO (py "Email alert sent successfully")])
    | Some e =>
        (Return (false, send_failure_message e),
         add_events (counted env (PyDict d) w)
           [SmtpSend (mkMessage (SENDER_EMAIL env) (SENDER_EMAIL env)
                        (alert_subject env (webhook_count w + 1)
                           (PyVal.dict_get d (py "event_type") (PyStr (py "Unknown"))))
                        [part]) (Some e);
            Log ERROR (send_failure_message e)])
    end.
Proof.
  destruct (alert_body_encodable env d) as [part Hm]. exists part.
  unfold per_event_alert. rewrite send_email_alert_eq, Hm. reflexivity.
Qed.

Lemma counted_trace env data w :
  counted env data w =
  {| webhook_count := webhook_count w + 1;
     webhook_url := webhook_url w;
     trace := trace (add_events w
                       [Log INFO (py "Received webhook data: " ++
                                  PyVal.str (unicode_printable env) data)]) |}.
Proof. reflexivity. Qed.

Lemma delivered_cases env d w :
  (delivered env d w = true /\
   exists w2,
     per_event_alert env d w = (Return (true, py "Email sent successfully"), w2)) \/
  (delivered env d w = false /\
   exists message w2,
     per_event_alert env d w = (Return (false, message), w2)).
Proof.
  unfold delivered. destruct (per_event_alert_cases env d w) as [part ->].
  destruct (smtp_send_session env _ _) as [e|]; cbn [fst]; eauto.
Qed.

(** X11.  The handler has two answers only: the success acknowledgement
    with status 200, or an error document with status 500.  It answers 200
    exactly when the body is a JSON object and the per-event alert went
    out; whether the completion alert goes out plays no part. *)
Theorem webhook_handler_answers (env : Env) (req : request) (w : World) :
  (fst (webhook_handler env req w) =
     Return (Lib.jsonify (py "success") (py "Webhook processed and alert sent"), 200) \/
   exists message,
     fst (webhook_handler env req w) =
       Return (Lib.jsonify (py "error") message, 500)) /\
  (fst (webhook_handler env req w) =
     Return (Lib.jsonify (py "success") (py "Webhook processed and alert sent"), 200) <->
   exists d, req = JsonBody (PyDict d) /\ delivered env d w = true).
Proof.
  destruct req as [v|e].
  - destruct (PyVal.is_dict v) eqn:Hv.
    + destruct v as [| | | | | |d]; try discriminate.
      rewrite webhook_handler_dict.
      destruct (delivered_cases env d w) as [[Hd (w2 & ->)]|[Hd (m & w2 & ->)]].
      * assert (Hr : fst (if MAX_WEBHOOKS <=? webhook_count w + 1
                          then (Return success_response,
                                add_events
                                  (snd (send_email_alert env final_subject final_body w2))
                                  [Log INFO (py "Maximum number of webhooks processed. Stopping.")])
                          else (Return success_response, w2)) =
                     Return success_response)
          by (destruct (MAX_WEBHOOKS <=? webhook_count w + 1); reflexivity).
        rewrite Hr. split; [left; reflexivity|].
        split; [|reflexivity]. intros _. exists d. auto.
      * cbn [fst]. split; [right; exists m; reflexivity|].
        split; [discriminate|].
        intros (d' & Hd' & Hdel). injection Hd' as <-. congruence.
    + rewrite (webhook_handler_not_dict env v w Hv). cbn [fst].
      split; [right; eexists; reflexivity|].
      split; [discriminate|].
      intros (d & Hd & _). injection Hd as ->. discriminate Hv.
  - rewrite webhook_handler_bad_body. cbn [fst].
    split; [right; eexists; reflexivity|].
    split; [discriminate|].
    intros (d & Hd & _). discriminate.
Qed.

(** X12.  What a request with a JSON-object body puts on the wire: always
    the per-event message, numbered with the incremented counter, and after
    it the completion message exactly when the per-event alert went out and
    the incremented counter is at least the quota.  A request whose
    per-event alert fails sends no completion message, whatever the
    counter. *)
Theorem mail_sent_per_request (env : Env) (d : list (pystr * pyval)) (w : World) :
  sent_subjects
    (events_since w (snd (webhook_handler env (JsonBody (PyDict d)) w))) =
    alert_subject env (webhook_count w + 1)
      (PyVal.dict_get d (py "event_type") (PyStr (py "Unknown"))) ::
    (if delivered env d w && (MAX_WEBHOOKS <=? webhook_count w + 1)
     then [final_subject] else []) /\
  sent_bodies
    (events_since w (snd (webhook_handler env (JsonBody (PyDict d)) w))) =
    alert_body env (processed d) ::
    (if delivered env d w && (MAX_WEBHOOKS <=? webhook_count w + 1)
     then [final_body] else []).
Proof.
  destruct (delivered_cases env d w) as [[Hd (w2 & H)]|[Hd (m & w2 & H)]];
    rewrite Hd.
  - destruct (webhook_handler_delivered env d w _ w2 H) as (_ & Hs & Hb).
    cbn [andb]. split; assumption.
  - cbn [andb]. rewrite webhook_handler_dict, H. cbn [snd].
    unfold per_event_alert in H.
    apply send_email_alert_sent in H as (evs & -> & Hs & Hb & _).
    rewrite (events_since_trace w _
               (Log INFO (py "Received webhook data: " ++
                          PyVal.str (unicode_printable env) (PyDict d)) :: evs)).
    + cbn [sent_subjects sent_bodies]. rewrite Hs, Hb. split; reflexivity.
    + cbn. rewrite <- app_assoc. reflexivity.
Qed.

(** X13.  Over any run of requests the counter grows by the number of
    requests whose body is a JSON object: failed alerts count, bodies that
    do not parse or are not objects do not, and nothing ever lowers it. *)
Theorem serve_counts_object_requests (env : Env) (reqs : list request) (w : World) :
  webhook_count (serve env reqs w) =
  webhook_count w + Z.of_nat (List.length (filter is_object_request reqs)).
Proof.
  revert w. induction reqs as [|req reqs IH]; intros w.
  - cbn. lia.
  - cbn [serve filter]. rewrite IH.
    destruct req as [v|e].
    + destruct (PyVal.is_dict v) eqn:Hv.
      * destruct v as [| | | | | |d]; try discriminate.
        rewrite webhook_handler_dict_count.
        cbn [is_object_request List.length]. lia.
      * rewrite (webhook_handler_not_dict env v w Hv). cbn [snd].
        destruct v; try discriminate; cbn [is_object_request]; reflexivity.
    + rewrite webhook_handler_bad_body. reflexivity.
Qed.

Lemma footprint_app env n m evs evs' :
  footprint env n evs -> footprint env m evs' ->
  footprint env (n + m) (evs ++ evs').
Proof.
  intros (Ha & Hn & Hf) (Ha' & Hm & Hf'). unfold footprint.
  rewrite forallb_app, Ha, Ha', sent_messages_app, length_app.
  repeat split; [lia | apply Forall_app; split; assumption].
Qed.

Lemma footprint_log env lvl text : footprint env 0 [Log lvl text].
Proof. repeat split; cbn; [lia | constructor]. Qed.

Lemma footprint_weaken env n m evs :
  (n <= m)%nat -> footprint env n evs -> footprint env m evs.
Proof. intros Hle (Ha & Hn & Hf). repeat split; [assumption | lia | assumption]. Qed.

Lemma send_email_alert_footprint env subject body w :
  exists evs,
    snd (send_email_alert env subject body w) = add_events w evs /\
    footprint env 1 evs.
Proof.
  rewrite send_email_alert_eq.
  destruct (Lib.MIMEText body) as [e|part].
  - exists []. rewrite add_events_nil.
    repeat split; cbn; [lia | constructor].
  - cbv zeta. destruct (smtp_send_session env (trace w) _) as [e|];
      eexists; (split; [reflexivity|]);
      repeat split; cbn; try lia; repeat constructor.
Qed.

(** X14.  Handling a request only appends to the history, and what it
    appends is log records and at most two mail messages, each sent from
    and to the configured sender address; the handler makes no HTTP call,
    starts no listener and leaves the stored webhook URL alone. *)
Theorem webhook_handler_footprint (env : Env) (req : request) (w : World) :
  exists evs,
    trace (snd (webhook_handler env req w)) = trace w ++ evs /\
    forallb mail_or_log evs = true /\
    (List.length (sent_messages evs) <= 2)%nat /\
    Forall (fun m => msg_From m = SENDER_EMAIL env /\ msg_To m = SENDER_EMAIL env)
      (sent_messages evs) /\
    http_posts evs = [] /\
    webhook_url (snd (webhook_handler env req w)) = webhook_url w.
Proof.
  assert (Hposts : forall evs, forallb mail_or_log evs = true -> http_posts evs = []).
  { induction evs as [|ev evs IH]; [reflexivity|].
    cbn [forallb]. intros H. apply andb_true_iff in H as [Hev Hevs].
    destruct ev; try discriminate; cbn; auto. }
  assert (Hgoal : forall evs,
             trace (snd (webhook_handler env req w)) = trace w ++ evs ->
             footprint env 2 evs ->
             webhook_url (snd (webhook_handler env req w)) = webhook_url w ->
             exists evs,
               trace (snd (webhook_handler env req w)) = trace w ++ evs /\
               forallb mail_or_log evs = true /\
               (List.length (sent_messages evs) <= 2)%nat /\
               Forall (fun m => msg_From m = SENDER_EMAIL env /\
                                msg_To m = SENDER_EMAIL env) (sent_messages evs) /\
               http_posts evs = [] /\
               webhook_url (snd (webhook_handler env req w)) = webhook_url w).
  { intros evs Ht (Ha & Hn & Hf) Hu. exists evs. auto 10. }
  destruct req as [v|e].
  - destruct (PyVal.is_dict v) eqn:Hv.
    + destruct v as [| | | | | |d]; try discriminate.
      pose proof (webhook_handler_dict env d w) as Hh.
      unfold per_event_alert in Hh.
      destruct (send_email_alert_footprint env
                  (alert_subject env (webhook_count w + 1)
                     (PyVal.dict_get d (py "event_type") (PyStr (py "Unknown"))))
                  (alert_body env (processed d)) (counted env (PyDict d) w))
        as (evs1 & Hw1 & Hf1).
      destruct (send_email_alert env _ _ (counted env (PyDict d) w))
        as [[[[|] m]|[e|c]] w2]; cbn [snd] in Hw1; subst w2.
      * destruct (MAX_WEBHOOKS <=? webhook_count w + 1).
        -- destruct (send_email_alert_footprint env final_subject final_body
                       (add_events (counted env (PyDict d) w) evs1))
             as (evs2 & Hw2 & Hf2).
           rewrite Hw2 in Hh.
           apply (Hgoal ([Log INFO (py "Received webhook data: " ++
                                     PyVal.str (unicode_printable env) (PyDict d))] ++
                         evs1 ++ evs2 ++
                         [Log INFO (py "Maximum number of webhooks processed. Stopping.")])).
           ++ rewrite Hh. cbn. repeat rewrite <- app_assoc. reflexivity.
           ++ apply (footprint_app env 0 2); [apply footprint_log|].
              apply (footprint_app env 1 1); [exact Hf1|].
              apply (footprint_app env 1 0); [exact Hf2 | apply footprint_log].
           ++ rewrite Hh. reflexivity.
        -- apply (Hgoal ([Log INFO (py "Received webhook data: " ++
                                     PyVal.str (unicode_printable env) (PyDict d))] ++
                         evs1)).
           ++ rewrite Hh. cbn. repeat rewrite <- app_assoc. reflexivity.
           ++ apply (footprint_weaken env 1 2); [lia|].
              apply (footprint_app env 0 1); [apply footprint_log | exact Hf1].
           ++ rewrite Hh. reflexivity.
      * apply (Hgoal ([Log INFO (py "Received webhook data: " ++
                                  PyVal.str (unicode_printable env) (PyDict d))] ++
                      evs1)).
        -- rewrite Hh. cbn. repeat rewrite <- app_assoc. reflexivity.
        -- apply (footprint_weaken env 1 2); [lia|].
           apply (footprint_app env 0 1); [apply footprint_log | exact Hf1].
        -- rewrite Hh. reflexivity.
      * apply (Hgoal ([Log INFO (py "Received webhook data: " ++
                                  PyVal.str (unicode_printable env) (PyDict d))] ++
                      evs1 ++
                      [Log ERROR (py "Error processing webhook: " ++ exn_str e)])).
        -- rewrite Hh. cbn. repeat rewrite <- app_assoc. reflexivity.
        -- apply (footprint_weaken env 1 2); [lia|].
           apply (footprint_app env 0 1); [apply footprint_log|].
           apply (footprint_app env 1 0); [exact Hf1 | apply footprint_log].
        -- rewrite Hh. reflexivity.
      * apply (Hgoal ([Log INFO (py "Received webhook data: " ++
                                  PyVal.str (unicode_printable env) (PyDict d))] ++
                      evs1)).
        -- rewrite Hh. cbn. repeat rewrite <- app_assoc. reflexivity.
        -- apply (footprint_weaken env 1 2); [lia|].
           apply (footprint_app env 0 1); [apply footprint_log | exact Hf1].
        -- rewrite Hh. reflexivity.
    + rewrite (webhook_handler_not_dict env v w Hv) in *. cbn [snd] in *.
      eapply Hgoal; [reflexivity | | reflexivity].
      apply (footprint_app env 0 2 [_] [_]); [apply footprint_log|].
      apply (footprint_weaken env 0 2); [lia | apply footprint_log].
  - rewrite webhook_handler_bad_body in *. cbn [snd] in *.
    eapply Hgoal; [reflexivity | | reflexivity].
    apply (footprint_weaken env 0 2); [lia | apply footprint_log].
Qed.

(** X15.  Normalizing is idempotent: the record [process_webhook_data]
    returns for a JSON object is itself a JSON object that
    [process_webhook_data] returns unchanged. *)
Theorem process_webhook_data_idempotent (d : list (pystr * pyval)) :
  exists r,
    process_webhook_data (PyDict d) = inr r /\
    process_webhook_data r = inr r.
Proof.
  exists (processed d). split; [apply process_webhook_data_dict|].
  unfold processed at 1. rewrite process_webhook_data_dict.
  reflexivity.
Qed.

(** X16.  The text [send_email_alert] returns for a failed session is the
    text it logs at level ERROR, and its wording follows the class: any
    [SMTPException], an authentication error included, is reported as an
    error "while sending the email", everything else as "unexpected". *)
Theorem send_email_alert_failure_text (env : Env) (subject body : pystr)
    (w : World) (part : MIMEPart) (e : exn) :
  Lib.MIMEText body = inr part ->
  smtp_send_session env (trace w)
    (mkMessage (SENDER_EMAIL env) (SENDER_EMAIL env) subject [part]) = Some e ->
  fst (send_email_alert env subject body w) =
    Return (false,
            match exn_class e with
            | SMTPAuthenticationError | SMTPException =>
                py "An error occurred while sending the email: " ++ exn_str e
            | _ => py "An unexpected error occurred: " ++ exn_str e
            end) /\
  logged (events_since w (snd (send_email_alert env subject body w))) =
    [(ERROR,
      match exn_class e with
      | SMTPAuthenticationError | SMTPException =>
          py "An error occurred while sending the email: " ++ exn_str e
      | _ => py "An unexpected error occurred: " ++ exn_str e
      end)].
Proof.
  intros Hm Hs. rewrite send_email_alert_eq, Hm. cbv zeta. rewrite Hs.
  cbn [fst snd]. rewrite events_since_add.
  unfold send_failure_message, is_SMTPException.
  destruct e as [[] text]; split; reflexivity.
Qed.

Lemma send_email_alert_failure_text_witness :
  Lib.MIMEText (py "disk full") = inr (mkPart us_ascii (py "disk full")) /\
  smtp_send_session Examples.smtp_down (trace initial_world)
    (mkMessage (SENDER_EMAIL Examples.smtp_down) (SENDER_EMAIL Examples.smtp_down)
       (py "Alert") [mkPart us_ascii (py "disk full")]) =
    Some (mkExn SMTPException (py "Connection unexpectedly closed")) /\
  fst (send_email_alert Examples.smtp_down (py "Alert") (py "disk full")
         initial_world) =
    Return (false,
            py "An error occurred while sending the email: Connection unexpectedly closed").
Proof.
  split; [reflexivity|]. split; [reflexivity|].
  exact (proj1 (send_email_alert_failure_text Examples.smtp_down (py "Alert")
                  (py "disk full") initial_world _ _ eq_refl eq_refl)).
Defined.
